(** * zillow.cli: a shallow embedding of [src/zillow/cli.py]

    The program is a command line scraper.  [main] reads two positional
    arguments, [parse_zillow_pages] drives three browser engines and
    rewrites one CSV file per engine, and [parse] loads cookies, builds
    the search URL, fetches the page five times and extracts listings.

    Python values are embedded as follows.
    - [str] is [string]; one [ascii] stands for one code point, so the
      embedding covers text whose code points are below 256.
    - a JSON document is [json]; a JSON object (a [dict] with string
      keys) is a [gmap string json].
    - the filesystem is a [gmap path node]; a path is the list of its
      components, innermost first.
    - statements that read or write the outside world are computations
      in the monad [M]: a state transformer over [world] whose result is
      a normal value, a raised exception, or divergence.
    - everything the program takes from a library or from its host
      (lxml, json, csv, the operating system, the browsers) is a field
      of [Lxml] or [Env]; the theorems hold for every such environment. *)

From Stdlib Require Import ZArith Ascii String DecimalString.
From stdpp Require Import gmap strings list fin_maps.

#[local] Set Warnings "-register-all".
#[local] Open Scope string_scope.

(** ** Python strings *)

Module PyStr.

(** [str.isspace] on a single code point below 256. *)
Definition isspace (c : ascii) : bool :=
  let n := nat_of_ascii c in
  (((9 <=? n) && (n <=? 13)) || ((28 <=? n) && (n <=? 32))
   || (n =? 133) || (n =? 160))%nat.

Definition is_empty (s : string) : bool :=
  match s with EmptyString => true | String _ _ => false end.

(** [sep.join(parts)] *)
Definition join (sep : string) (parts : list string) : string :=
  String.concat sep parts.

(** [s.split()]: the maximal runs of non-whitespace, in order.
    [word] is the run being read. *)
Fixpoint split_from (word s : string) : list string :=
  match s with
  | EmptyString => if is_empty word then [] else [word]
  | String c rest =>
      if isspace c
      then (if is_empty word then split_from "" rest
            else word :: split_from "" rest)
      else split_from (word ++ String c "") rest
  end.

Definition split (s : string) : list string := split_from "" s.

Fixpoint lstrip (s : string) : string :=
  match s with
  | EmptyString => ""
  | String c rest => if isspace c then lstrip rest else s
  end.

Fixpoint rstrip (s : string) : string :=
  match s with
  | EmptyString => ""
  | String c rest =>
      let r := rstrip rest in
      if is_empty r && isspace c then "" else String c r
  end.

(** [s.strip()] *)
Definition strip (s : string) : string := rstrip (lstrip s).

(** [s.replace(old, new)] for one-character [old] and [new]. *)
Fixpoint replace_char (old new : ascii) (s : string) : string :=
  match s with
  | EmptyString => ""
  | String c rest =>
      String (if Ascii.eqb c old then new else c) (replace_char old new rest)
  end.

(** [s.startswith(p)] *)
Definition startswith (p s : string) : bool := String.prefix p s.

(** [str(n)] for a non-negative integer. *)
Definition of_nat (n : nat) : string := NilZero.string_of_uint (Nat.to_uint n).

(** The double quote character, and U+00B7 (middle dot). *)
Definition dquote : string := String "034"%char "".
Definition middle_dot : ascii := "183"%char.

End PyStr.

(** ** JSON values as [json.load] returns them *)

(** [JNull] is [None].  A float is written as mantissa and binary
    exponent; only whether it is zero matters to this program. *)
Inductive json : Type :=
| JNull
| JBool (b : bool)
| JInt (z : Z)
| JFloat (mantissa exponent : Z)
| JStr (s : string)
| JArr (items : list json)
| JObj (members : gmap string json).

(** Truth value of a Python object. *)
Definition truthy (v : json) : bool :=
  match v with
  | JNull => false
  | JBool b => b
  | JInt z => negb (z =? 0)%Z
  | JFloat m _ => negb (m =? 0)%Z
  | JStr s => negb (PyStr.is_empty s)
  | JArr items => match items with [] => false | _ :: _ => true end
  | JObj members => negb (bool_decide (members = ∅))
  end.

(** [a or b] *)
Definition py_or (a b : json) : json := if truthy a then a else b.

(** [d.get(key)]: the value, or [None] when the key is missing. *)
Definition dict_get (d : gmap string json) (key : string) : json :=
  default JNull (d !! key).

(** ** Exceptions, outcomes and the monad of effects *)

Inductive exn : Type :=
| FileExistsError
| NotADirectoryError
| FileNotFoundError
| IsADirectoryError
| JSONDecodeError
| AttributeError
| NameError
| ParserError
| PlaywrightError.

(** [except IOError] catches [OSError] and its subclasses. *)
Definition is_IOError (e : exn) : bool :=
  match e with
  | FileExistsError | NotADirectoryError | FileNotFoundError
  | IsADirectoryError => true
  | _ => false
  end.

(** How a computation ends: with a value, with an exception on its way
    up, or not at all. *)
Inductive outcome (A : Type) : Type :=
| Normal (a : A)
| Raised (e : exn)
| Diverged.
Arguments Normal {A} a.
Arguments Raised {A} e.
Arguments Diverged {A}.

(** A path lists its components innermost first:
    [/home/u/proj/.build] is [[".build"; "proj"; "u"; "home"]]. *)
Abbreviation path := (list string).

(** [p.joinpath(name)] and [p.parent] of [pathlib]. *)
Definition joinpath (p : path) (name : string) : path := name :: p.
Definition parent (p : path) : path := tail p.

Inductive node : Type :=
| Dir
| File (data : string).

Inductive browser_type : Type := chromium | firefox | webkit.

(** The local variable [url] of [parse] is first the search URL (a
    [str], lines 53-61) and is bound again at line 100 to the list of
    hrefs of the listing in hand. *)
Inductive url_value : Type :=
| UStr (s : string)
| UList (hrefs : list string).

(** Calls made on the browser automation library, in program order. *)
Inductive call : Type :=
| Launch (b : browser_type)
| NewContext
| AddCookies (cookies : list (gmap string json))
| NewPage
| Goto (url : url_value)
| Content
| Screenshot (name : string)
| Close (b : browser_type).

Record world : Type := World {
  fs : gmap path node;
  stdout : list string;
  calls : list call;
}.

Definition M (A : Type) : Type := world → outcome A * world.

#[global] Instance M_ret : MRet M := λ A a w, (Normal a, w).

#[global] Instance M_bind : MBind M := λ A B k m w,
  match m w with
  | (Normal a, w') => k a w'
  | (Raised e, w') => (Raised e, w')
  | (Diverged, w') => (Diverged, w')
  end.

Definition raise {A : Type} (e : exn) : M A := λ w, (Raised e, w).

(** [try: body except IOError: handler] *)
Definition try_except_IOError {A : Type} (body handler : M A) : M A := λ w,
  match body w with
  | (Raised e, w') => if is_IOError e then handler w' else (Raised e, w')
  | r => r
  end.

(** [try: body finally: cleanup].  The cleanup runs when the body
    returns and when it raises; the exception of the body is raised
    again afterwards unless the cleanup raised one itself. *)
Definition try_finally {A : Type} (body : M A) (cleanup : M unit) : M A := λ w,
  match body w with
  | (Normal a, w') =>
      match cleanup w' with
      | (Normal _, w'') => (Normal a, w'')
      | (Raised e, w'') => (Raised e, w'')
      | (Diverged, w'') => (Diverged, w'')
      end
  | (Raised e, w') =>
      match cleanup w' with
      | (Normal _, w'') => (Raised e, w'')
      | (Raised e', w'') => (Raised e', w'')
      | (Diverged, w'') => (Diverged, w'')
      end
  | (Diverged, w') => (Diverged, w')
  end.

(** [for x in xs: body x], threading the loop-carried variables [s]. *)
Fixpoint for_each {X S : Type} (xs : list X) (body : X → S → M S) (s : S) : M S :=
  match xs with
  | [] => mret s
  | x :: rest => s' ← body x s; for_each rest body s'
  end.

(** [print(line)] *)
Definition print (line : string) : M unit := λ w,
  (Normal tt, World (fs w) (stdout w ++ [line]) (calls w)).

(** Record a call on the browser library. *)
Definition record_call (c : call) : M unit := λ w,
  (Normal tt, World (fs w) (stdout w) (calls w ++ [c])).

(** ** The filesystem *)

(** [p.exists()] *)
Definition path_exists (fsys : gmap path node) (p : path) : bool :=
  bool_decide (is_Some (fsys !! p)).

(** [p.mkdir(exist_ok=True, parents=True)]: an existing directory is
    left alone, an existing file is an error, missing ancestors are made
    first. *)
Fixpoint mkdir_p (fsys : gmap path node) (p : path) : exn + gmap path node :=
  match fsys !! p with
  | Some Dir => inr fsys
  | Some (File _) => inl FileExistsError
  | None =>
      match p with
      | [] => inr (<[p := Dir]> fsys)
      | _ :: up =>
          match fsys !! up with
          | Some Dir => inr (<[p := Dir]> fsys)
          | Some (File _) => inl NotADirectoryError
          | None =>
              match mkdir_p fsys up with
              | inl e => inl e
              | inr fsys' => inr (<[p := Dir]> fsys')
              end
          end
      end
  end.

Definition mkdir (p : path) : M unit := λ w,
  match mkdir_p (fs w) p with
  | inl e => (Raised e, w)
  | inr fsys => (Normal tt, World fsys (stdout w) (calls w))
  end.

(** [open(p, "r")] followed by reading the whole file. *)
Definition read_file (p : path) : M string := λ w,
  match fs w !! p with
  | Some (File data) => (Normal data, w)
  | Some Dir => (Raised IsADirectoryError, w)
  | None => (Raised FileNotFoundError, w)
  end.

(** [open(p, "wb")]: the file is created or emptied; a directory cannot
    be opened, and the containing directory must exist. *)
Definition open_wb (p : path) : M unit := λ w,
  match fs w !! p with
  | Some Dir => (Raised IsADirectoryError, w)
  | _ =>
      match fs w !! parent p with
      | Some Dir => (Normal tt, World (<[p := File ""]> (fs w)) (stdout w) (calls w))
      | Some (File _) => (Raised NotADirectoryError, w)
      | None => (Raised FileNotFoundError, w)
      end
  end.

(** Writing [data] at the end of the file opened at [p]. *)
Definition write (p : path) (data : string) : M unit := λ w,
  match fs w !! p with
  | Some (File old) =>
      (Normal tt, World (<[p := File (old ++ data)]> (fs w)) (stdout w) (calls w))
  | _ => (Raised FileNotFoundError, w)
  end.

(** ** What the program takes from its libraries and its host *)

(** The part of [lxml.html] the program uses.  [xpath_nodes] is
    [e.xpath(q)] for a query that selects elements, [xpath_text] for a
    query that ends in [text()] or in an attribute. *)
Class Lxml : Type := {
  element : Type;
  fromstring : string → option element;
  isinstance_HtmlElement : element → bool;
  xpath_nodes : element → string → list element;
  xpath_text : element → string → list string;
}.

(** The host of one run.
    - [cwd]: the working directory of the process;
    - [resolve cwd name]: where the operating system puts a file opened
      under the relative name [name];
    - [json_load]: [json.load] on the text of a file, [None] when the
      text is not JSON;
    - [writerow]: the bytes the CSV writer emits for one row of cells;
    - [checks_default]: whether the [argparse] in use validates the
      default of an omitted [nargs="?"] positional against [choices]
      (see [parse_args]);
    - the browsers: whether an engine launches, whether a context takes
      the cookies, the markup a navigation of pass [i] renders ([None]
      when navigation fails), and the image of its screenshot. *)
Record Env : Type := {
  cwd : path;
  resolve : path → string → path;
  json_load : string → option json;
  writerow : list (option string) → string;
  checks_default : bool;
  launch_ok : browser_type → bool;
  accepts_cookies : list (gmap string json) → bool;
  page_content : browser_type → nat → string → option string;
  screenshot_png : browser_type → nat → option string;
}.

(** ** The program *)

(** [class InputData] (lines 17-20) *)
Record InputData : Type := {
  zip_code : string;
  sort : string;
}.

(** The dictionary built at lines 113-123, one field per key. *)
Record listing : Type := {
  address : option string;
  city : option string;
  state : option string;
  postal_code : option string;
  price : option string;
  facts_and_features : string;
  real_estate_provider : option string;
  url : option string;
  title : option string;
}.

(** Lines 12-14 import [SetCookieParam] under [if TYPE_CHECKING:], and
    [typing.TYPE_CHECKING] is [False] when the program runs: the name is
    bound for the type checker only.  Were it bound, calling the typed
    dictionary class on [**cookie] would give back a dictionary with
    the same members. *)
Definition TYPE_CHECKING : bool := false.

Definition SetCookieParam : option (gmap string json → gmap string json) :=
  if TYPE_CHECKING then Some (λ cookie, cookie) else None.

(** Line 45: [cookie.get("name") or cookie.get("domain") or 'other'] *)
Definition cookie_name (cookie : gmap string json) : json :=
  py_or (dict_get cookie "name") (py_or (dict_get cookie "domain") (JStr "other")).

(** Line 46: [cookie["name"] = name] *)
Definition named_cookie (cookie : gmap string json) : gmap string json :=
  <["name" := cookie_name cookie]> cookie.

(** Lines 45-47, the body of the loop over the entries.  [.get] exists
    on dictionaries only. *)
Definition load_cookie (cookie : json) (cookie_data_list : list (gmap string json))
  : M (list (gmap string json)) :=
  match cookie with
  | JObj members =>
      let cookie := named_cookie members in
      match SetCookieParam with
      | Some make => mret (cookie_data_list ++ [make cookie])%list
      | None => raise NameError
      end
  | _ => raise AttributeError
  end.

Definition cookie_file_message : string :=
  "Cookie file not found. Please log in and save the cookies to continue".

(** Lines 53-61 *)
Definition search_url (zip : string) (filter_request : option string) : string :=
  if bool_decide (filter_request = Some "newest") then
    "https://www.zillow.com/homes/for_sale/" ++ zip ++ "/0_singlestory/days_sort"
  else if bool_decide (filter_request = Some "cheapest") then
    "https://www.zillow.com/homes/for_sale/" ++ zip ++ "/0_singlestory/pricea_sort/"
  else
    "https://www.zillow.com/homes/for_sale/" ++ zip ++ "_rb/?fromHomePage=true"
    ++ "&shouldFireSellPageImplicitClaimGA=false&fromHomePageTab=buy ".

(** The three templates, each a function of the postal code alone. *)
Definition default_template (zip : string) : string :=
  "https://www.zillow.com/homes/for_sale/" ++ zip
  ++ "_rb/?fromHomePage=true&shouldFireSellPageImplicitClaimGA=false&fromHomePageTab=buy ".
Definition newest_template (zip : string) : string :=
  "https://www.zillow.com/homes/for_sale/" ++ zip ++ "/0_singlestory/days_sort".
Definition cheapest_template (zip : string) : string :=
  "https://www.zillow.com/homes/for_sale/" ++ zip ++ "/0_singlestory/pricea_sort/".

(** The XPath queries of lines 75-112. *)
Definition q_results : string := "//div[@id='search-results']//article".
Definition q_address : string :=
  ".//span[@itemprop='address']//span[@itemprop='streetAddress']//text()".
Definition q_city : string :=
  ".//span[@itemprop='address']//span[@itemprop='addressLocality']//text()".
Definition q_state : string :=
  ".//span[@itemprop='address']//span[@itemprop='addressRegion']//text()".
Definition q_postal_code : string :=
  ".//span[@itemprop='address']//span[@itemprop='postalCode']//text()".
Definition q_price : string := ".//span[@class='zsg-photo-card-price']//text()".
Definition q_info : string := ".//span[@class='zsg-photo-card-info']//text()".
Definition q_broker_name : string :=
  ".//span[@class='zsg-photo-card-broker-name']//text()".
Definition q_url : string := ".//a[contains(@class,'overlay-link')]/@href".
Definition q_title : string := ".//h4//text()".
Definition q_for_sale : string :=
  ".//span[@class=" ++ PyStr.dquote ++ "zsg-icon-for-sale" ++ PyStr.dquote ++ "]".

Definition site_origin : string := "https://www.zillow.com".

(** [f(raw) if raw else None] *)
Definition if_any (f : list string → string) (raw : list string) : option string :=
  match raw with
  | [] => None
  | _ :: _ => Some (f raw)
  end.

Definition collapse (raw : list string) : string :=
  PyStr.join " " (PyStr.split (PyStr.join " " raw)).

Definition joined_stripped (raw : list string) : string :=
  PyStr.strip (PyStr.join "" raw).

(** Line 64: [range(5)] *)
Definition passes : list nat := seq 0 5.

(** Lines 138-148 *)
Definition fieldnames : list string :=
  ["title"; "address"; "city"; "state"; "postal_code"; "price";
   "facts and features"; "real estate provider"; "url"].

(** The cells [DictWriter] takes from a row, in [fieldnames] order. *)
Definition row_cells (row : listing) : list (option string) :=
  [title row; address row; city row; state row; postal_code row; price row;
   Some (facts_and_features row); real_estate_provider row; url row].

(** The closed choice set and the default of the [sort] argument
    (lines 172-173). *)
Definition sort_choices : list string := ["newest"; "cheapest"].
Definition sort_default : string := "homes for you".

(** What [ArgumentParser.parse_args] does with the command line:
    a namespace, a usage error (message on stderr, exit status 2), or
    the handling of a word that starts with a dash, which belongs to
    the option syntax of [argparse] and is not described here. *)
Inductive parsed_args : Type :=
| Namespace (zipcode sort : string)
| UsageError
| OptionSyntax.

(** How the process ends. *)
Inductive finish : Type :=
| Exited (status : Z)
| Hangs
| OptionHandling.

Section Program.

Context `{Lxml} (env : Env).

(** Lines 29-34.  Each round of the [while] loop takes one unit of
    [fuel]; [None] means the fuel ran out with the loop still going.
    The loop reads the filesystem and never writes it. *)
Fixpoint find_pyproject (fuel : nat) (fsys : gmap path node)
    (root pyproject : option path) : option (option path) :=
  match root with
  | None => Some pyproject
  | Some r =>
      match fuel with
      | O => None
      | S fuel =>
          let pyproject := joinpath r "pyproject.toml" in
          if path_exists fsys pyproject
          then find_pyproject fuel fsys None (Some pyproject)
          else find_pyproject fuel fsys (Some r) (Some pyproject)
      end
  end.

Definition search_marker (fuel : nat) : M (option path) := λ w,
  match find_pyproject fuel (fs w) (Some (cwd env)) None with
  | Some pyproject => (Normal pyproject, w)
  | None => (Diverged, w)
  end.

(** Lines 40-51.  [cookie_data_list] is empty when the [try] is entered
    and the only statements that raise [IOError] come before the first
    [append], so the handler leaves the list empty. *)
Definition load_cookies (cookies_path : path) : M (list (gmap string json)) :=
  try_except_IOError
    (text ← read_file cookies_path;
     match json_load env text with
     | None => raise JSONDecodeError
     | Some cookie_raw_data =>
         match cookie_raw_data with
         | JArr entries => for_each entries load_cookie []
         | _ => mret []
         end
     end)
    (print cookie_file_message;; mret []).

(** Lines 36-51 *)
Definition cookie_phase (pyproject : option path) : M (list (gmap string json)) :=
  match pyproject with
  | Some pyproject =>
      let project_intermediate_path := joinpath (parent pyproject) ".build" in
      mkdir project_intermediate_path;;
      let cookies_path := joinpath project_intermediate_path "cookies.json" in
      load_cookies cookies_path
  | None => mret []
  end.

(** Lines 78-125, one listing container. *)
Definition scrape (properties : element) : listing * list string * bool :=
  let raw_address := xpath_text properties q_address in
  let raw_city := xpath_text properties q_city in
  let raw_state := xpath_text properties q_state in
  let raw_postal_code := xpath_text properties q_postal_code in
  let raw_price := xpath_text properties q_price in
  let raw_info := xpath_text properties q_info in
  let raw_broker_name := xpath_text properties q_broker_name in
  let url := xpath_text properties q_url in
  let raw_title := xpath_text properties q_title in
  let address := if_any collapse raw_address in
  let city := if_any joined_stripped raw_city in
  let state := if_any joined_stripped raw_state in
  let postal_code := if_any joined_stripped raw_postal_code in
  let price := if_any joined_stripped raw_price in
  let info := PyStr.replace_char PyStr.middle_dot "," (collapse raw_info) in
  let broker := if_any joined_stripped raw_broker_name in
  let title := if_any (PyStr.join "") raw_title in
  let property_url :=
    match url with
    | href :: _ => Some (site_origin ++ href)
    | [] => None
    end in
  let is_for_sale := xpath_nodes properties q_for_sale in
  ({| address := address; city := city; state := state;
      postal_code := postal_code; price := price;
      facts_and_features := info; real_estate_provider := broker;
      url := property_url; title := title |},
   url,
   match is_for_sale with [] => false | _ :: _ => true end).

(** Lines 77-125: the loop over the containers.  It carries [url],
    which line 100 binds to the hrefs of the container, and
    [properties_list]. *)
Fixpoint scan (search_results : list element) (url : url_value)
    (properties_list : list listing) : url_value * list listing :=
  match search_results with
  | [] => (url, properties_list)
  | properties :: rest =>
      if negb (isinstance_HtmlElement properties)
      then scan rest url properties_list
      else
        let '(record, hrefs, is_for_sale) := scrape properties in
        scan rest (UList hrefs)
          (if is_for_sale then (properties_list ++ [record])%list else properties_list)
  end.

Definition add_cookies (cookie_data_list : list (gmap string json)) : M unit :=
  record_call (AddCookies cookie_data_list);;
  if accepts_cookies env cookie_data_list then mret tt else raise PlaywrightError.

(** [page.goto(url)] then [page.content()].  The library takes a
    string; any other value is refused. *)
Definition goto_content (b : browser_type) (i : nat) (url : url_value) : M string :=
  record_call (Goto url);;
  match url with
  | UList _ => raise PlaywrightError
  | UStr u =>
      match page_content env b i u with
      | None => raise PlaywrightError
      | Some page_data => record_call Content;; mret page_data
      end
  end.

(** [page.screenshot(path=name)] *)
Definition screenshot (b : browser_type) (i : nat) (name : string) : M unit :=
  record_call (Screenshot name);;
  match screenshot_png env b i with
  | None => raise PlaywrightError
  | Some png =>
      let p := resolve env (cwd env) name in
      open_wb p;; write p png
  end.

(** Lines 65-125, one round of [for i in range(5)]. *)
Definition fetch (b : browser_type) (input_data : InputData)
    (cookie_data_list : list (gmap string json)) (i : nat)
    (vars : url_value * list listing) : M (url_value * list listing) :=
  let '(url, properties_list) := vars in
  record_call NewContext;;
  add_cookies cookie_data_list;;
  record_call NewPage;;
  page_data ← goto_content b i url;
  screenshot b i ("example-" ++ PyStr.of_nat i ++ ".png");;
  print ("Fetching data for " ++ zip_code input_data);;
  print page_data;;
  match fromstring page_data with
  | None => raise ParserError
  | Some parser =>
      let search_results := xpath_nodes parser q_results in
      mret (scan search_results url properties_list)
  end.

(** [parse] (lines 23-127) on the browser of engine [b]. *)
Definition parse (fuel : nat) (b : browser_type) (input_data : InputData)
    (filter_request : option string) : M (list listing) :=
  pyproject ← search_marker fuel;
  cookie_data_list ← cookie_phase pyproject;
  let url := search_url (zip_code input_data) filter_request in
  vars ← for_each passes (fetch b input_data cookie_data_list) (UStr url, []);
  mret (snd vars).

(** Lines 137-152 *)
Definition write_csv (name : string) (scraped_data : list listing) : M unit :=
  let csv_file := resolve env (cwd env) name in
  open_wb csv_file;;
  write csv_file (writerow env (Some <$> fieldnames));;
  for_each scraped_data (λ row _, write csv_file (writerow env (row_cells row))) tt.

Definition csv_name (input_data : InputData) : string :=
  "properties-" ++ zip_code input_data ++ ".csv".

Definition launch (b : browser_type) : M unit :=
  record_call (Launch b);;
  if launch_ok env b then mret tt else raise PlaywrightError.

(** Lines 133-154, one engine.  [parse] is called without a third
    argument, so [filter_request] takes its default [None]. *)
Definition engine (fuel : nat) (input_data : InputData) (b : browser_type) : M unit :=
  launch b;;
  try_finally
    (scraped_data ← parse fuel b input_data None;
     print "Writing data to output file";;
     write_csv (csv_name input_data) scraped_data)
    (record_call (Close b)).

(** [parse_zillow_pages] (lines 130-154) *)
Definition parse_zillow_pages (fuel : nat) (input_data : InputData) : M unit :=
  for_each [chromium; firefox; webkit] (λ b _, engine fuel input_data b) tt.

(** [ArgumentParser._check_value] for the [sort] argument. *)
Definition check_value (value : string) : bool :=
  bool_decide (value ∈ sort_choices).

(** [parse_args] for the parser of lines 164-174: a required positional
    [zipcode] and a positional [sort] with [nargs="?"], a default and a
    closed choice set.  Words are matched to the positionals from the
    left.  For an omitted [sort], [ArgumentParser._get_values] takes the
    default and, where [checks_default] holds, passes it through
    [_check_value] like a word of the command line. *)
Definition parse_args (argv : list string) : parsed_args :=
  if existsb (PyStr.startswith "-") argv then OptionSyntax
  else
    match argv with
    | [] => UsageError
    | [zipcode] =>
        if checks_default env && negb (check_value sort_default)
        then UsageError
        else Namespace zipcode sort_default
    | zipcode :: sort :: extras =>
        if negb (check_value sort) then UsageError
        else match extras with
             | [] => Namespace zipcode sort
             | _ :: _ => UsageError
             end
    end.

(** [main] (lines 157-177).  An uncaught exception ends the process
    with status 1, a usage error with status 2. *)
Definition main (fuel : nat) (argv : list string) (w : world) : finish * world :=
  match parse_args argv with
  | UsageError => (Exited 2, w)
  | OptionSyntax => (OptionHandling, w)
  | Namespace zipcode sort =>
      let data := {| zip_code := zipcode; sort := sort |} in
      match parse_zillow_pages fuel data w with
      | (Normal _, w') => (Exited 0, w')
      | (Raised _, w') => (Exited 1, w')
      | (Diverged, w') => (Hangs, w')
      end
  end.

End Program.

(** ** A concrete environment for running the embedding *)

Module Fixture.

(** A document is a table from queries to their results. *)
Inductive toy : Type :=
| Toy (html : bool) (texts : list (string * list string))
      (nodes : list (string * list toy)).

Definition answers {A : Type} (q : string) (table : list (string * list A)) : list A :=
  match List.find (λ kv, String.eqb (fst kv) q) table with
  | Some kv => snd kv
  | None => []
  end.

Definition toy_is_html (e : toy) : bool := let 'Toy h _ _ := e in h.
Definition toy_text (e : toy) (q : string) : list string :=
  let 'Toy _ texts _ := e in answers q texts.
Definition toy_nodes (e : toy) (q : string) : list toy :=
  let 'Toy _ _ nodes := e in answers q nodes.

Definition marker : toy := Toy true [] [].

(** A listing with a title and one overlay link; [sale] says whether it
    carries the for-sale marker. *)
Definition article (sale : bool) (name href : string) : toy :=
  Toy true [(q_title, [name]); (q_url, [href])]
      [(q_for_sale, if sale then [marker] else [])].

Definition document (articles : list toy) : toy :=
  Toy true [] [(q_results, articles)].

(** Three pages: no listing; one listing for sale; one for sale and one
    not. *)
Definition toy_fromstring (page_data : string) : option toy :=
  if String.eqb page_data "<empty>" then Some (document [])
  else if String.eqb page_data "<one>" then
    Some (document [article true "Bungalow" "/homedetails/1"])
  else if String.eqb page_data "<two>" then
    Some (document [article false "Sold house" "/homedetails/2";
                    article true "Cottage" "https://www.zillow.com/homedetails/3"])
  else None.

#[global] Instance toy_lxml : Lxml := {|
  element := toy;
  fromstring := toy_fromstring;
  isinstance_HtmlElement := toy_is_html;
  xpath_nodes := toy_nodes;
  xpath_text := toy_text;
|}.

Definition toy_json_load (text : string) : option json :=
  if String.eqb text "[]" then Some (JArr [])
  else if String.eqb text "[{}]" then Some (JArr [JObj ∅])
  else if String.eqb text "{}" then Some (JObj ∅)
  else None.

Definition toy_writerow (cells : list (option string)) : string :=
  PyStr.join "," (default "" <$> cells) ++ ";".

(** A host whose browsers always launch and render [content b i]. *)
Definition host (dir : path) (checks : bool) (content : browser_type → nat → string) : Env := {|
  cwd := dir;
  resolve := joinpath;
  json_load := toy_json_load;
  writerow := toy_writerow;
  checks_default := checks;
  launch_ok := λ _, true;
  accepts_cookies := λ _, true;
  page_content := λ b i _, Some (content b i);
  screenshot_png := λ _ _, Some "PNG";
|}.

(** The same host with a second engine that does not launch. *)
Definition host_without_firefox (dir : path) (content : browser_type → nat → string)
  : Env := {|
  cwd := dir;
  resolve := joinpath;
  json_load := toy_json_load;
  writerow := toy_writerow;
  checks_default := false;
  launch_ok := λ b, match b with firefox => false | _ => true end;
  accepts_cookies := λ _, true;
  page_content := λ b i _, Some (content b i);
  screenshot_png := λ _ _, Some "PNG";
|}.

Definition project : path := ["proj"; "home"].

(** A project directory holding the marker file and nothing else. *)
Definition bare_project : gmap path node :=
  <[joinpath project "pyproject.toml" := File ""]>
    (<[project := Dir]> (<[["home"] := Dir]> (<[[] := Dir]> ∅))).

Definition start (fsys : gmap path node) : world := World fsys [] [].

(** The same project with a source directory in it, and the source
    directory as a working directory. *)
Definition subdir : path := joinpath project "src".

Definition project_with_subdir : gmap path node := <[subdir := Dir]> bare_project.

(** The same project with a regular file where the build directory
    goes. *)
Definition project_with_build_file : gmap path node :=
  <[joinpath project ".build" := File "x"]> bare_project.

(** The same project with a build directory and a cookie file of the
    given text. *)
Definition project_with_cookies (text : string) : gmap path node :=
  <[joinpath (joinpath project ".build") "cookies.json" := File text]>
    (<[joinpath project ".build" := Dir]> bare_project).

(** The same project with a directory where the cookie file goes. *)
Definition project_with_cookie_dir : gmap path node :=
  <[joinpath (joinpath project ".build") "cookies.json" := Dir]>
    (<[joinpath project ".build" := Dir]> bare_project).

Definition beverly_hills : InputData := {| zip_code := "90210"; sort := sort_default |}.

(** Every pass renders the empty page. *)
Definition quiet : browser_type → nat → string := λ _ _, "<empty>".

(** Only the last pass of the first engine shows a listing. *)
Definition chromium_only : browser_type → nat → string := λ b i,
  match b with
  | chromium => if (i =? 4)%nat then "<one>" else "<empty>"
  | _ => "<empty>"
  end.

(** Every pass shows one listing. *)
Definition busy : browser_type → nat → string := λ _ _, "<one>".

(** Only the last pass of the last engine shows listings. *)
Definition webkit_last : browser_type → nat → string := λ b i,
  match b with
  | webkit => if (i =? 4)%nat then "<two>" else "<empty>"
  | _ => "<empty>"
  end.

End Fixture.



(** * Vocabulary of the statements *)

(** [spec R Q m]: running [m] relates the world before to the world
    after by [R], however [m] ends, and a value it returns satisfies
    [Q]. *)
Definition spec {A : Type} (R : relation world) (Q : A → Prop) (m : M A) : Prop :=
  ∀ w, R w (m w).2 ∧ ∀ a, (m w).1 = Normal a → Q a.

Abbreviation keeps R m := (spec R (λ _, True) m).

(** Paths outside [allowed] hold after what they held before. *)
Definition frame (allowed : path → Prop) : relation world :=
  λ w w', ∀ p, ¬ allowed p → fs w' !! p = fs w !! p.

(** A directory stays a directory. *)
Definition dirs_kept : relation world :=
  λ w w', ∀ p, fs w !! p = Some Dir → fs w' !! p = Some Dir.

(** The calls made on the browser library in between all satisfy [P]. *)
Definition called (P : call → Prop) : relation world :=
  λ w w', ∃ new, calls w' = (calls w ++ new)%list ∧ Forall P new.

(** The calls a run makes when it navigates to [url0]: no cookie is
    ever registered, and a string handed to [goto] is [url0]. *)
Definition expected_call (url0 : string) (c : call) : Prop :=
  match c with
  | AddCookies cookies => cookies = []
  | Goto (UStr u) => u = url0
  | _ => True
  end.

(** The same for the calls made inside [parse], which neither launches
    nor closes a browser. *)
Definition pass_call (url0 : string) (c : call) : Prop :=
  match c with
  | Launch _ | Close _ => False
  | AddCookies cookies => cookies = []
  | Goto (UStr u) => u = url0
  | _ => True
  end.

Definition screenshot_name (i : nat) : string :=
  "example-" ++ PyStr.of_nat i ++ ".png".

(** The names under which the program writes files. *)
Definition output_name (input_data : InputData) (name : string) : Prop :=
  name = csv_name input_data ∨ ∃ i, i ∈ passes ∧ name = screenshot_name i.

(** The loop-carried [url] is the search URL or a list of hrefs. *)
Definition url_from (url0 : string) (vars : url_value * list listing) : Prop :=
  vars.1 = UStr url0 ∨ ∃ hrefs, vars.1 = UList hrefs.

(** [project_intermediate_path] and [cookies_path] of a run. *)
Definition build_dir (env : Env) : path := joinpath (cwd env) ".build".
Definition cookies_json (env : Env) : path := joinpath (build_dir env) "cookies.json".
Definition marker_file (env : Env) : path := joinpath (cwd env) "pyproject.toml".


(** The paths a run may write: the build directory with its parents,
    and the files named by [output_name]. *)
Definition written (env : Env) (input_data : InputData) (p : path) : Prop :=
  p `suffix_of` build_dir env
  ∨ ∃ name, output_name input_data name ∧ p = resolve env (cwd env) name.

(** Lines 63-127 of [parse]: the five passes and the [return]. *)
Definition fetch_loop `{Lxml} (env : Env) (b : browser_type) (input_data : InputData)
    (cookie_data_list : list (gmap string json)) (filter_request : option string)
  : M (list listing) :=
  vars ← for_each passes (fetch env b input_data cookie_data_list)
           (UStr (search_url (zip_code input_data) filter_request), []);
  mret vars.2.

(** The listings of one pass: what the scan appends for the page that
    engine [b] renders in pass [i] at the address [url0]. *)
Definition pass_records `{Lxml} (env : Env) (url0 : string) (b : browser_type) (i : nat)
  : list listing :=
  match page_content env b i url0 with
  | Some page_data =>
      match fromstring page_data with
      | Some parser => (scan (xpath_nodes parser q_results) (UStr "") []).2
      | None => []
      end
  | None => []
  end.

(** The listings of the five passes of one engine, and of all passes of
    all engines, at the default URL. *)
Definition engine_records `{Lxml} (env : Env) (zip : string) (b : browser_type)
  : list listing :=
  flat_map (pass_records env (default_template zip) b) passes.

Definition all_records `{Lxml} (env : Env) (zip : string) : list listing :=
  flat_map (engine_records env zip) [chromium; firefox; webkit].

(** The text of a CSV file with the header and the given rows. *)
Definition csv_rows (env : Env) (rows : list listing) : string :=
  foldr (λ row text, writerow env (row_cells row) ++ text) "" rows.

Definition csv_text (env : Env) (rows : list listing) : string :=
  writerow env (Some <$> fieldnames) ++ csv_rows env rows.

(** The claim about the [url] field in its own words: the first overlay
    link, resolved against the origin when it is relative and kept when
    it is already absolute. *)
Definition is_absolute (href : string) : bool :=
  PyStr.startswith "http://" href || PyStr.startswith "https://" href.

Definition resolved_against_origin (href : string) : string :=
  if is_absolute href then href else site_origin ++ href.

Definition url_as_claimed (hrefs : list string) : option string :=
  resolved_against_origin <$> head hrefs.

(** The strings handed to [goto], in order. *)
Definition navigations (cs : list call) : list url_value :=
  omap (λ c, match c with Goto u => Some u | _ => None end) cs.

(** The exception the first entry of a cookie list ends on (lines
    45-47). *)
Definition entry_error (cookie : json) : exn :=
  match cookie with
  | JObj _ => NameError
  | _ => AttributeError
  end.

(** The containers [search_results] of the page that engine [b] renders
    in pass [i] at the address [url0] (lines 68-75). *)
Definition page_results `{Lxml} (env : Env) (url0 : string) (b : browser_type) (i : nat)
  : list element :=
  match page_content env b i url0 with
  | Some page_data =>
      match fromstring page_data with
      | Some parser => xpath_nodes parser q_results
      | None => []
      end
  | None => []
  end.

(** What lines 78-125 make of one container: its record, the hrefs that
    line 100 binds to [url], and whether it passes both tests (an
    [HtmlElement] with a for-sale marker). *)
Definition record_of `{Lxml} (c : element) : listing := (scrape c).1.1.
Definition hrefs_of `{Lxml} (c : element) : list string := (scrape c).1.2.
Definition kept `{Lxml} (c : element) : bool :=
  isinstance_HtmlElement c && (scrape c).2.

(** The calls of [parse_zillow_pages] itself. *)
Definition engine_call (c : call) : Prop :=
  match c with
  | Launch _ | Close _ => True
  | _ => False
  end.

(** The launches and closes among a list of calls, in order. *)
Definition is_engine_call (c : call) : bool :=
  match c with
  | Launch _ | Close _ => true
  | _ => false
  end.

Definition engine_calls (cs : list call) : list call :=
  filter (λ c, is_engine_call c = true) cs.

(** Every path keeps its kind: a directory is still a directory and a
    file is still a file, with whatever content. *)
Definition is_file (n : option node) : Prop := ∃ data, n = Some (File data).

Definition kinds_kept : relation world :=
  λ w w', ∀ p, (fs w !! p = Some Dir → fs w' !! p = Some Dir)
               ∧ (is_file (fs w !! p) → is_file (fs w' !! p)).

(** The code points of a string, and a word: a non-empty string without
    whitespace. *)
Definition chars (s : string) : list ascii := list_ascii_of_string s.

Definition spaceless (s : string) : Prop :=
  Forall (λ c, PyStr.isspace c = false) (chars s).

Definition word (s : string) : Prop := s ≠ "" ∧ spaceless s.

(** A field that, when present, has no whitespace at either end. *)
Definition stripped (field : option string) : Prop :=
  match field with
  | Some v => PyStr.strip v = v
  | None => True
  end.

Import Fixture.

(** * Properties *)

(** ** Sanity checks of the string functions *)

Example split_collapses_runs :
  PyStr.split "  12  Main   St " = ["12"; "Main"; "St"].
Proof. reflexivity. Qed.

Example strip_keeps_inner_space : PyStr.strip "  a b  " = "a b".
Proof. reflexivity. Qed.

Example default_url_90210 :
  search_url "90210" None
  = "https://www.zillow.com/homes/for_sale/90210_rb/?fromHomePage=true&shouldFireSellPageImplicitClaimGA=false&fromHomePageTab=buy ".
Proof. reflexivity. Qed.

(** ** Reading the monad *)

Lemma bind_unfold {A B : Type} (m : M A) (k : A → M B) (w : world) :
  (m ≫= k) w =
  match m w with
  | (Normal a, w') => k a w'
  | (Raised e, w') => (Raised e, w')
  | (Diverged, w') => (Diverged, w')
  end.
Proof. reflexivity. Qed.

Lemma bind_normal {A B : Type} (m : M A) (k : A → M B) (w w' : world) (b : B) :
  (m ≫= k) w = (Normal b, w') →
  ∃ a w1, m w = (Normal a, w1) ∧ k a w1 = (Normal b, w').
Proof.
  rewrite bind_unfold. destruct (m w) as [[a|e|] w1]; intros Hk.
  - exists a, w1. split; [reflexivity | exact Hk].
  - discriminate Hk.
  - discriminate Hk.
Qed.

Lemma bind_assoc {A B C : Type} (m : M A) (f : A → M B) (g : B → M C) (w : world) :
  ((m ≫= f) ≫= g) w = (m ≫= λ a, f a ≫= g) w.
Proof. rewrite !bind_unfold. destruct (m w) as [[a|e|] w1]; reflexivity. Qed.

Lemma try_finally_normal {A : Type} (body : M A) (cleanup : M unit)
    (w w' : world) (a : A) :
  try_finally body cleanup w = (Normal a, w') →
  ∃ w1, body w = (Normal a, w1) ∧ cleanup w1 = (Normal tt, w').
Proof.
  unfold try_finally. destruct (body w) as [[a1|e|] w1]; [| |discriminate].
  - destruct (cleanup w1) as [[[]|e'|] w2] eqn:Hc; intros [= <- <-].
    exists w1. split; [reflexivity | exact Hc].
  - destruct (cleanup w1) as [[[]|e'|] w2]; discriminate.
Qed.

Lemma string_app_assoc (a b c : string) : ((a ++ b) ++ c = a ++ (b ++ c))%string.
Proof.
  induction a as [|x a IH]; [reflexivity |].
  change (String x ((a ++ b) ++ c) = String x (a ++ (b ++ c)))%string.
  rewrite IH. reflexivity.
Qed.

Lemma for_each_cons {X S : Type} (x : X) (xs : list X) (body : X → S → M S) (s : S) :
  for_each (x :: xs) body s = (body x s ≫= for_each xs body).
Proof. reflexivity. Qed.

(** ** A small program logic *)

Section Logic.

Context (R : relation world) `{!PreOrder R}.

Lemma spec_ret {A : Type} (Q : A → Prop) (a : A) : Q a → spec R Q (mret a).
Proof.
  intros HQ w. split; [reflexivity |].
  intros a' Ha. cbn in Ha. congruence.
Qed.

Lemma spec_raise {A : Type} (Q : A → Prop) (e : exn) : spec R Q (raise e).
Proof. intros w. split; [reflexivity | intros a Ha; discriminate Ha]. Qed.

Lemma spec_bind {A B : Type} (Q : A → Prop) (Q' : B → Prop) (m : M A) (k : A → M B) :
  spec R Q m → (∀ a, Q a → spec R Q' (k a)) → spec R Q' (m ≫= k).
Proof.
  intros Hm Hk w. rewrite bind_unfold.
  destruct (Hm w) as [HR HQ]. destruct (m w) as [[a|e|] w1]; cbn in *.
  - destruct (Hk a (HQ a eq_refl) w1) as [HR' HQ'].
    split; [etransitivity; eassumption | exact HQ'].
  - split; [exact HR | intros b Hb; discriminate Hb].
  - split; [exact HR | intros b Hb; discriminate Hb].
Qed.

Lemma spec_then {A B : Type} (Q' : B → Prop) (m : M A) (k : A → M B) :
  keeps R m → (∀ a, spec R Q' (k a)) → spec R Q' (m ≫= k).
Proof. intros Hm Hk. apply (spec_bind (λ _, True)); [exact Hm | intros a _; apply Hk]. Qed.

Lemma spec_seq {A B : Type} (Q' : B → Prop) (m : M A) (k : M B) :
  keeps R m → spec R Q' k → spec R Q' (m ≫= λ _, k).
Proof. intros Hm Hk. apply (spec_bind (λ _, True)); [exact Hm | intros _ _; exact Hk]. Qed.

Lemma spec_for_each {X S : Type} (I : S → Prop) (xs : list X) (body : X → S → M S) :
  (∀ x s, x ∈ xs → I s → spec R I (body x s)) →
  ∀ s, I s → spec R I (for_each xs body s).
Proof.
  induction xs as [|x xs IH]; intros Hbody s Hs.
  - apply spec_ret, Hs.
  - rewrite for_each_cons. eapply spec_bind.
    + apply Hbody; [left | exact Hs].
    + apply IH. intros x' s' Hx'. apply Hbody. right. exact Hx'.
Qed.

Lemma spec_try_except {A : Type} (Q : A → Prop) (body handler : M A) :
  spec R Q body → spec R Q handler → spec R Q (try_except_IOError body handler).
Proof.
  intros Hb Hh w. unfold try_except_IOError.
  destruct (Hb w) as [HR HQ]. destruct (body w) as [[a|e|] w1]; cbn in *.
  - split; [exact HR | exact HQ].
  - destruct (is_IOError e).
    + destruct (Hh w1) as [HR' HQ'].
      split; [etransitivity; eassumption | exact HQ'].
    + split; [exact HR | intros a Ha; discriminate Ha].
  - split; [exact HR | intros a Ha; discriminate Ha].
Qed.

Lemma spec_try_finally {A : Type} (Q : A → Prop) (body : M A) (cleanup : M unit) :
  spec R Q body → keeps R cleanup → spec R Q (try_finally body cleanup).
Proof.
  intros Hb Hc w. unfold try_finally.
  destruct (Hb w) as [HR HQ]. destruct (body w) as [[a|e|] w1]; cbn in *.
  - destruct (Hc w1) as [HR' _]. destruct (cleanup w1) as [[u|e'|] w2]; cbn in *.
    + split; [etransitivity; eassumption |].
      intros a' Ha'. apply HQ. congruence.
    + split; [etransitivity; eassumption | intros a' Ha'; discriminate Ha'].
    + split; [etransitivity; eassumption | intros a' Ha'; discriminate Ha'].
  - destruct (Hc w1) as [HR' _]. destruct (cleanup w1) as [[u|e'|] w2]; cbn in *;
      (split; [etransitivity; eassumption | intros a' Ha'; discriminate Ha']).
  - split; [exact HR | intros a Ha; discriminate Ha].
Qed.

(** A computation that leaves the world as it is. *)
Lemma spec_pure {A : Type} (Q : A → Prop) (m : M A) :
  (∀ w, (m w).2 = w) → (∀ w a, (m w).1 = Normal a → Q a) → spec R Q m.
Proof.
  intros Hw HQ w. split.
  - rewrite Hw. reflexivity.
  - apply HQ.
Qed.

Lemma keeps_of_step {A : Type} (m : M A) : (∀ w, R w (m w).2) → keeps R m.
Proof. intros Hm w. split; [apply Hm | trivial]. Qed.

Lemma bind_after {A B : Type} (m : M A) (k : A → M B) (w : world) :
  (∀ a, keeps R (k a)) → R (m w).2 ((m ≫= k) w).2.
Proof.
  intros Hk. rewrite bind_unfold. destruct (m w) as [[a|e|] w1]; cbn.
  - apply (Hk a w1).
  - reflexivity.
  - reflexivity.
Qed.

Lemma try_finally_after {A : Type} (body : M A) (cleanup : M unit) (w : world) :
  keeps R cleanup → R (body w).2 (try_finally body cleanup w).2.
Proof.
  intros Hc. unfold try_finally. destruct (body w) as [[a|e|] w1]; cbn.
  - pose proof (proj1 (Hc w1)) as HR.
    destruct (cleanup w1) as [[u|e'|] w2]; exact HR.
  - pose proof (proj1 (Hc w1)) as HR.
    destruct (cleanup w1) as [[u|e'|] w2]; exact HR.
  - reflexivity.
Qed.

Lemma spec_world {A : Type} (Q : A → Prop) (m : M A) (w : world) :
  spec R Q m → R w (m w).2.
Proof. intros Hm. apply Hm. Qed.

Lemma spec_returns {A : Type} (Q : A → Prop) (m : M A) (w w' : world) (a : A) :
  spec R Q m → m w = (Normal a, w') → Q a ∧ R w w'.
Proof.
  intros Hm Hrun. destruct (Hm w) as [HR HQ]. rewrite Hrun in *.
  split; [apply HQ; reflexivity | exact HR].
Qed.

End Logic.

#[global] Opaque spec.

(** ** The directory search (lines 29-34) *)

Lemma find_pyproject_found (fuel : nat) (fsys : gmap path node) (r : path)
    (pyproject : option path) :
  path_exists fsys (joinpath r "pyproject.toml") = true →
  find_pyproject (S fuel) fsys (Some r) pyproject
  = Some (Some (joinpath r "pyproject.toml")).
Proof. intros Hex. cbn. rewrite Hex. destruct fuel; reflexivity. Qed.

Lemma find_pyproject_missing (fsys : gmap path node) (r : path) :
  path_exists fsys (joinpath r "pyproject.toml") = false →
  ∀ fuel pyproject, find_pyproject fuel fsys (Some r) pyproject = None.
Proof.
  intros Hex fuel. induction fuel as [|fuel IH]; intros pyproject.
  - reflexivity.
  - cbn. rewrite Hex. apply IH.
Qed.

Lemma find_pyproject_result (fuel : nat) (fsys : gmap path node) (r : path)
    (pyproject found : option path) :
  find_pyproject fuel fsys (Some r) pyproject = Some found →
  found = Some (joinpath r "pyproject.toml")
  ∧ path_exists fsys (joinpath r "pyproject.toml") = true.
Proof.
  destruct (path_exists fsys (joinpath r "pyproject.toml")) eqn:Hex.
  - destruct fuel as [|fuel]; [discriminate |].
    rewrite find_pyproject_found by exact Hex. intros [= <-]. split; reflexivity.
  - rewrite find_pyproject_missing by exact Hex. discriminate.
Qed.

(** ** Cookie loading (lines 40-51) *)

Lemma load_cookie_raises (cookie : json) (acc : list (gmap string json)) (w : world) :
  ∃ e, load_cookie cookie acc w = (Raised e, w).
Proof.
  destruct cookie; cbn; try (exists AttributeError; reflexivity).
  exists NameError. reflexivity.
Qed.

Lemma load_entries_world (entries : list json) (w : world) :
  (for_each entries load_cookie [] w).2 = w.
Proof.
  destruct entries as [|cookie rest]; [reflexivity |].
  rewrite for_each_cons, bind_unfold.
  destruct (load_cookie_raises cookie [] w) as [e ->]. reflexivity.
Qed.

Lemma load_entries_value (entries : list json) (w : world) (l : list (gmap string json)) :
  (for_each entries load_cookie [] w).1 = Normal l → l = [] ∧ entries = [].
Proof.
  destruct entries as [|cookie rest].
  - cbn. intros [= <-]. split; reflexivity.
  - rewrite for_each_cons, bind_unfold.
    destruct (load_cookie_raises cookie [] w) as [e ->]. discriminate.
Qed.

(** ** Extraction (lines 77-125) *)

Section Extraction.

Context `{Lxml}.

Lemma scan_cons (e : element) (rest : list element) (v : url_value)
    (acc : list listing) :
  scan (e :: rest) v acc =
  if negb (isinstance_HtmlElement e) then scan rest v acc
  else scan rest (UList (scrape e).1.2)
         (if (scrape e).2 then (acc ++ [(scrape e).1.1])%list else acc).
Proof. cbn [scan]. destruct (scrape e) as [[record hrefs] is_for_sale]. reflexivity. Qed.

Lemma scan_url_from (url0 : string) (search_results : list element)
    (v : url_value) (acc : list listing) :
  url_from url0 (v, acc) → url_from url0 (scan search_results v acc).
Proof.
  revert v acc.
  induction search_results as [|e rest IH]; intros v acc Hv.
  - exact Hv.
  - rewrite scan_cons. destruct (negb (isinstance_HtmlElement e)).
    + apply IH, Hv.
    + apply IH. right. eexists. reflexivity.
Qed.

(** The listings a scan appends do not depend on the [url] or on the
    list it starts from. *)
Lemma scan_appends (search_results : list element) (v v' : url_value)
    (acc : list listing) :
  (scan search_results v acc).2 = (acc ++ (scan search_results v' []).2)%list.
Proof.
  revert v v' acc.
  induction search_results as [|e rest IH]; intros v v' acc.
  - cbn. rewrite app_nil_r. reflexivity.
  - rewrite !scan_cons. destruct (negb (isinstance_HtmlElement e)).
    + apply IH.
    + destruct (scrape e).2.
      * rewrite (IH _ (UList (scrape e).1.2) (acc ++ _)%list).
        rewrite (IH _ (UList (scrape e).1.2) ([] ++ _)%list).
        rewrite <- app_assoc. reflexivity.
      * apply IH.
Qed.

End Extraction.

(** ** What every statement of a run keeps

    The relation [R] is any preorder on worlds that the five kinds of
    primitive step of a run respect; every function of the program then
    respects it as well. *)

Tactic Notation "rule" uconstr(lem) := eapply lem; try exact _.

Section Run.

Context `{Lxml} (env : Env) (R : relation world) `{!PreOrder R}.
Variables (input_data : InputData) (filter_request : option string).

Hypothesis R_print : ∀ line, keeps R (print line).
Hypothesis R_call : ∀ c,
  pass_call (search_url (zip_code input_data) filter_request) c →
  keeps R (record_call c).
Hypothesis R_mkdir : keeps R (mkdir (build_dir env)).
Hypothesis R_open : ∀ name,
  output_name input_data name → keeps R (open_wb (resolve env (cwd env) name)).
Hypothesis R_write : ∀ name data,
  output_name input_data name → keeps R (write (resolve env (cwd env) name) data).
Hypothesis R_engine : ∀ b,
  keeps R (record_call (Launch b)) ∧ keeps R (record_call (Close b)).

Lemma search_marker_spec (fuel : nat) :
  spec R (λ pyproject, pyproject = Some (marker_file env)) (search_marker env fuel).
Proof.
  rule spec_pure; [|]; intros w; unfold search_marker;
    destruct (find_pyproject fuel (fs w) (Some (cwd env)) None) as [found|] eqn:Hfind;
    cbn; try reflexivity; try discriminate.
  intros a [= <-]. apply find_pyproject_result in Hfind. apply Hfind.
Qed.

Lemma load_cookies_spec (cookies_path : path) :
  spec R (λ cookie_data_list, cookie_data_list = []) (load_cookies env cookies_path).
Proof.
  rule spec_try_except.
  - rule spec_then.
    + rule spec_pure; [| trivial].
      intros w. unfold read_file. destruct (fs w !! cookies_path) as [[|data]|]; reflexivity.
    + intros text. destruct (json_load env text) as [[| | | | |entries|]|];
        try (rule spec_raise); try (rule spec_ret; [reflexivity]).
      rule spec_pure; [apply load_entries_world |].
      intros w l Hl. apply load_entries_value in Hl. apply Hl.
  - rule spec_seq; [apply R_print |].
    rule spec_ret; [reflexivity].
Qed.

Lemma cookie_phase_spec :
  spec R (λ cookie_data_list, cookie_data_list = [])
    (cookie_phase env (Some (marker_file env))).
Proof.
  unfold cookie_phase. rule spec_seq; [apply R_mkdir |].
  apply load_cookies_spec.
Qed.

Lemma add_cookies_keeps : keeps R (add_cookies env []).
Proof.
  unfold add_cookies. rule spec_seq; [apply R_call; reflexivity |].
  destruct (accepts_cookies env []); [rule spec_ret; [trivial] | rule spec_raise].
Qed.

Lemma goto_content_keeps (b : browser_type) (i : nat) (vars : url_value * list listing) :
  url_from (search_url (zip_code input_data) filter_request) vars →
  keeps R (goto_content env b i vars.1).
Proof.
  intros Hv. unfold goto_content. rule spec_seq; [|].
  - apply R_call. destruct Hv as [-> | [hrefs ->]]; reflexivity.
  - destruct vars.1 as [u|hrefs]; [| rule spec_raise].
    destruct (page_content env b i u); [| rule spec_raise].
    rule spec_seq; [apply R_call; reflexivity |].
    rule spec_ret; [trivial].
Qed.

Lemma screenshot_keeps (b : browser_type) (i : nat) :
  i ∈ passes → keeps R (screenshot env b i (screenshot_name i)).
Proof.
  intros Hi. unfold screenshot. rule spec_seq; [apply R_call; reflexivity |].
  destruct (screenshot_png env b i); [| rule spec_raise].
  assert (output_name input_data (screenshot_name i)) as Hname
    by (right; exists i; split; [exact Hi | reflexivity]).
  rule spec_seq; [apply R_open, Hname | apply R_write, Hname].
Qed.

Lemma fetch_spec (b : browser_type) (i : nat) (vars : url_value * list listing) :
  i ∈ passes →
  url_from (search_url (zip_code input_data) filter_request) vars →
  spec R (url_from (search_url (zip_code input_data) filter_request))
    (fetch env b input_data [] i vars).
Proof.
  intros Hi Hv. unfold fetch. destruct vars as [v acc].
  rule spec_seq; [apply R_call; reflexivity |].
  rule spec_seq; [apply add_cookies_keeps |].
  rule spec_seq; [apply R_call; reflexivity |].
  rule spec_then; [apply (goto_content_keeps b i (v, acc)), Hv |].
  intros page_data.
  rule spec_seq; [apply (screenshot_keeps b i Hi) |].
  rule spec_seq; [apply R_print |].
  rule spec_seq; [apply R_print |].
  destruct (fromstring page_data) as [parser|]; [| rule spec_raise].
  rule spec_ret. apply scan_url_from, Hv.
Qed.

Lemma fetch_loop_spec (b : browser_type) :
  spec R (url_from (search_url (zip_code input_data) filter_request))
    (for_each passes (fetch env b input_data [])
       (UStr (search_url (zip_code input_data) filter_request), [])).
Proof.
  rule spec_for_each; [| left; reflexivity].
  intros i vars Hi Hv. apply fetch_spec; assumption.
Qed.

Lemma fetch_loop_keeps (b : browser_type) :
  keeps R (fetch_loop env b input_data [] filter_request).
Proof.
  unfold fetch_loop. rule spec_bind; [apply fetch_loop_spec |].
  intros vars _. rule spec_ret. trivial.
Qed.

Lemma after_mkdir_keeps (b : browser_type) (cookies_path : path) :
  keeps R (cookie_data_list ← load_cookies env cookies_path;
           fetch_loop env b input_data cookie_data_list filter_request).
Proof.
  rule spec_bind; [apply load_cookies_spec |].
  intros cookie_data_list ->. apply fetch_loop_keeps.
Qed.

Lemma parse_keeps (fuel : nat) (b : browser_type) :
  keeps R (parse env fuel b input_data filter_request).
Proof.
  unfold parse. rule spec_bind; [apply search_marker_spec |].
  intros pyproject ->. rule spec_bind; [apply cookie_phase_spec |].
  intros cookie_data_list ->. cbn beta zeta.
  rule spec_bind; [apply fetch_loop_spec |].
  intros vars _. rule spec_ret; [trivial].
Qed.

Lemma write_csv_keeps (scraped_data : list listing) :
  keeps R (write_csv env (csv_name input_data) scraped_data).
Proof.
  assert (output_name input_data (csv_name input_data)) as Hname by (left; reflexivity).
  unfold write_csv. rule spec_seq; [apply R_open, Hname |].
  rule spec_seq; [apply R_write, Hname |].
  rule spec_for_each; [| trivial].
  intros row [] _ _. apply R_write, Hname.
Qed.

Lemma engine_keeps (fuel : nat) (b : browser_type) :
  filter_request = None → keeps R (engine env fuel input_data b).
Proof.
  intros Hnone. unfold engine, launch.
  rule spec_seq.
  - rule spec_seq; [apply R_engine |].
    destruct (launch_ok env b); [rule spec_ret; [trivial] | rule spec_raise].
  - rule spec_try_finally; [| apply R_engine].
    rule spec_then.
    + rewrite <- Hnone. apply parse_keeps.
    + intros scraped_data. rule spec_seq; [apply R_print |].
      apply write_csv_keeps.
Qed.

Lemma run_keeps (fuel : nat) :
  filter_request = None → keeps R (parse_zillow_pages env fuel input_data).
Proof.
  intros Hnone. unfold parse_zillow_pages.
  rule spec_for_each; [| trivial].
  intros b [] _ _. apply engine_keeps, Hnone.
Qed.

End Run.

(** ** The three relations are preorders, and the primitive steps
       respect them *)

#[global] Instance frame_preorder (allowed : path → Prop) : PreOrder (frame allowed).
Proof.
  split.
  - intros w p _. reflexivity.
  - intros w1 w2 w3 H12 H23 p Hp. rewrite (H23 p Hp). apply H12, Hp.
Qed.

#[global] Instance dirs_kept_preorder : PreOrder dirs_kept.
Proof.
  split.
  - intros w p Hp. exact Hp.
  - intros w1 w2 w3 H12 H23 p Hp. apply H23, H12, Hp.
Qed.

#[global] Instance called_preorder (P : call → Prop) : PreOrder (called P).
Proof.
  split.
  - intros w. exists []. split; [rewrite app_nil_r; reflexivity | constructor].
  - intros w1 w2 w3 (n1 & E1 & F1) (n2 & E2 & F2). exists (n1 ++ n2)%list. split.
    + rewrite E2, E1, app_assoc. reflexivity.
    + apply Forall_app. split; assumption.
Qed.

Lemma mkdir_p_unfold (fsys : gmap path node) (p : path) :
  mkdir_p fsys p =
  match fsys !! p with
  | Some Dir => inr fsys
  | Some (File _) => inl FileExistsError
  | None =>
      match p with
      | [] => inr (<[p := Dir]> fsys)
      | _ :: up =>
          match fsys !! up with
          | Some Dir => inr (<[p := Dir]> fsys)
          | Some (File _) => inl NotADirectoryError
          | None =>
              match mkdir_p fsys up with
              | inl e => inl e
              | inr fsys' => inr (<[p := Dir]> fsys')
              end
          end
      end
  end.
Proof. destruct p; reflexivity. Qed.

(** [mkdir] touches the directory and its ancestors only. *)
Lemma mkdir_p_frame (p : path) (fsys fsys' : gmap path node) (q : path) :
  mkdir_p fsys p = inr fsys' → ¬ q `suffix_of` p → fsys' !! q = fsys !! q.
Proof.
  revert fsys'. induction p as [|name up IH]; intros fsys' Hmk Hq;
    rewrite mkdir_p_unfold in Hmk.
  - destruct (fsys !! []) as [[|data]|]; simplify_eq; [reflexivity |].
    apply lookup_insert_ne. intros <-. apply Hq. reflexivity.
  - assert (name :: up ≠ q) as Hne by (intros <-; apply Hq; reflexivity).
    assert (¬ q `suffix_of` up) as Hup
      by (intros Hs; apply Hq, suffix_cons_r, Hs).
    destruct (fsys !! (name :: up)) as [[|data]|]; simplify_eq; [reflexivity |].
    destruct (fsys !! up) as [[|data]|] eqn:Eup; simplify_eq.
    + apply lookup_insert_ne, Hne.
    + destruct (mkdir_p fsys up) as [e|fsys''] eqn:Emk; simplify_eq.
      rewrite lookup_insert_ne by exact Hne. apply IH; [reflexivity | exact Hup].
Qed.

(** [mkdir] turns no directory into anything else. *)
Lemma mkdir_p_dirs (p : path) (fsys fsys' : gmap path node) (q : path) :
  mkdir_p fsys p = inr fsys' → fsys !! q = Some Dir → fsys' !! q = Some Dir.
Proof.
  revert fsys'. induction p as [|name up IH]; intros fsys' Hmk Hq;
    rewrite mkdir_p_unfold in Hmk.
  - destruct (fsys !! []) as [[|data]|]; simplify_eq; [exact Hq |].
    rewrite lookup_insert. case_decide; [reflexivity | exact Hq].
  - destruct (fsys !! (name :: up)) as [[|data]|]; simplify_eq; [exact Hq |].
    destruct (fsys !! up) as [[|data]|] eqn:Eup; simplify_eq.
    + rewrite lookup_insert. case_decide; [reflexivity | exact Hq].
    + destruct (mkdir_p fsys up) as [e|fsys''] eqn:Emk; simplify_eq.
      rewrite lookup_insert. case_decide; [reflexivity |].
      apply IH; [reflexivity | exact Hq].
Qed.

(** When it returns, the directory is there. *)
Lemma mkdir_p_made (p : path) (fsys fsys' : gmap path node) :
  mkdir_p fsys p = inr fsys' → fsys' !! p = Some Dir.
Proof.
  rewrite mkdir_p_unfold. intros Hmk.
  destruct (fsys !! p) as [[|data]|] eqn:Ep; simplify_eq; [exact Ep |].
  destruct p as [|name up]; simplify_eq; [apply lookup_insert_eq |].
  destruct (fsys !! up) as [[|data]|]; simplify_eq; [apply lookup_insert_eq |].
  destruct (mkdir_p fsys up); simplify_eq. apply lookup_insert_eq.
Qed.

Section Steps.

Context (allowed : path → Prop) (P : call → Prop).

Lemma print_frame (line : string) : keeps (frame allowed) (print line).
Proof. apply keeps_of_step. intros w p _. reflexivity. Qed.

Lemma record_call_frame (c : call) : keeps (frame allowed) (record_call c).
Proof. apply keeps_of_step. intros w p _. reflexivity. Qed.

Lemma mkdir_frame (p : path) :
  (∀ q, q `suffix_of` p → allowed q) → keeps (frame allowed) (mkdir p).
Proof.
  intros Hp. apply keeps_of_step. intros w q Hq. unfold mkdir.
  destruct (mkdir_p (fs w) p) as [e|fsys'] eqn:Emk; [reflexivity |]. cbn.
  eapply mkdir_p_frame; [exact Emk |]. intros Hs. apply Hq, Hp, Hs.
Qed.

Lemma open_wb_frame (p : path) : allowed p → keeps (frame allowed) (open_wb p).
Proof.
  intros Hp. apply keeps_of_step. intros w q Hq. unfold open_wb.
  assert (p ≠ q) as Hne by (intros <-; apply Hq, Hp).
  destruct (fs w !! p) as [[|old]|]; [reflexivity | |];
    (destruct (fs w !! parent p) as [[|data]|]; [| reflexivity | reflexivity]);
    cbn; apply lookup_insert_ne, Hne.
Qed.

Lemma write_frame (p : path) (data : string) :
  allowed p → keeps (frame allowed) (write p data).
Proof.
  intros Hp. apply keeps_of_step. intros w q Hq. unfold write.
  assert (p ≠ q) as Hne by (intros <-; apply Hq, Hp).
  destruct (fs w !! p) as [[|old]|]; [reflexivity | | reflexivity].
  cbn. apply lookup_insert_ne, Hne.
Qed.

Lemma print_dirs (line : string) : keeps dirs_kept (print line).
Proof. apply keeps_of_step. intros w p Hp. exact Hp. Qed.

Lemma record_call_dirs (c : call) : keeps dirs_kept (record_call c).
Proof. apply keeps_of_step. intros w p Hp. exact Hp. Qed.

Lemma mkdir_dirs (p : path) : keeps dirs_kept (mkdir p).
Proof.
  apply keeps_of_step. intros w q Hq. unfold mkdir.
  destruct (mkdir_p (fs w) p) as [e|fsys'] eqn:Emk; [exact Hq |]. cbn.
  eapply mkdir_p_dirs; eassumption.
Qed.

Lemma open_wb_dirs (p : path) : keeps dirs_kept (open_wb p).
Proof.
  apply keeps_of_step. intros w q Hq. unfold open_wb.
  destruct (fs w !! p) as [[|old]|] eqn:Ep; [exact Hq | |];
    (destruct (fs w !! parent p) as [[|data]|]; [| exact Hq | exact Hq]);
    cbn; rewrite lookup_insert_ne; try exact Hq; intros <-; congruence.
Qed.

Lemma write_dirs (p : path) (data : string) : keeps dirs_kept (write p data).
Proof.
  apply keeps_of_step. intros w q Hq. unfold write.
  destruct (fs w !! p) as [[|old]|] eqn:Ep; [exact Hq | | exact Hq].
  cbn. rewrite lookup_insert_ne; [exact Hq |]. intros <-. congruence.
Qed.

Lemma same_calls (w w' : world) : calls w' = calls w → called P w w'.
Proof.
  intros E. exists []. split; [rewrite app_nil_r; exact E | constructor].
Qed.

Lemma print_called (line : string) : keeps (called P) (print line).
Proof. apply keeps_of_step. intros w. apply same_calls. reflexivity. Qed.

Lemma record_call_called (c : call) : P c → keeps (called P) (record_call c).
Proof.
  intros Hc. apply keeps_of_step. intros w. exists [c].
  split; [reflexivity | repeat constructor; exact Hc].
Qed.

Lemma mkdir_called (p : path) : keeps (called P) (mkdir p).
Proof.
  apply keeps_of_step. intros w. apply same_calls. unfold mkdir.
  destruct (mkdir_p (fs w) p); reflexivity.
Qed.

Lemma open_wb_called (p : path) : keeps (called P) (open_wb p).
Proof.
  apply keeps_of_step. intros w. apply same_calls. unfold open_wb.
  destruct (fs w !! p) as [[|old]|]; [reflexivity | |];
    destruct (fs w !! parent p) as [[|data]|]; reflexivity.
Qed.

Lemma write_called (p : path) (data : string) : keeps (called P) (write p data).
Proof.
  apply keeps_of_step. intros w. apply same_calls. unfold write.
  destruct (fs w !! p) as [[|old]|]; reflexivity.
Qed.

End Steps.

(** ** The listing record *)

(** C5.  A listing container without a for-sale marker appends nothing:
    scanning it leaves [properties_list] as it was, whatever its other
    fields hold, and the listings of a page are those of the page
    without that container. *)
Theorem C5_unmarked_container_appends_nothing `{Lxml} (c : element)
    (before after : list element) (v : url_value) (acc : list listing) :
  xpath_nodes c q_for_sale = [] →
  (∃ v', scan (c :: after) v acc = scan after v' acc)
  ∧ (scan (before ++ c :: after) v acc).2 = (scan (before ++ after) v acc).2.
Proof.
  intros Hnone.
  assert ((scrape c).2 = false) as Hsale by (unfold scrape; cbn; rewrite Hnone; reflexivity).
  assert (∀ u l, ∃ u', scan (c :: after) u l = scan after u' l) as Hstep.
  { intros u l. rewrite scan_cons, Hsale.
    destruct (negb (isinstance_HtmlElement c)); eexists; reflexivity. }
  split; [apply Hstep |].
  revert v acc. induction before as [|e rest IH]; intros v acc.
  - cbn [app]. destruct (Hstep v acc) as [v' ->].
    rewrite (scan_appends after v' v acc). symmetry. apply scan_appends.
  - cbn [app]. rewrite !scan_cons.
    destruct (negb (isinstance_HtmlElement e)); apply IH.
Qed.

Lemma C5_witness :
  (∃ v', scan [article false "Sold house" "/homedetails/2";
               article true "Cottage" "/homedetails/3"] (UStr "u") []
         = scan [article true "Cottage" "/homedetails/3"] v' [])
  ∧ (scan ([article true "Bungalow" "/homedetails/1"]
           ++ article false "Sold house" "/homedetails/2"
              :: [article true "Cottage" "/homedetails/3"]) (UStr "u") []).2
    = (scan ([article true "Bungalow" "/homedetails/1"]
             ++ [article true "Cottage" "/homedetails/3"]) (UStr "u") []).2.
Proof.
  apply (@C5_unmarked_container_appends_nothing toy_lxml
           (article false "Sold house" "/homedetails/2")).
  reflexivity.
Defined.

(** C8, as amended.  The [url] field is the site origin followed by the
    first overlay link of the container, whatever that link is, and is
    missing when the container has no overlay link. *)
Theorem C8_url_is_origin_then_first_href `{Lxml} (c : element) :
  url (scrape c).1.1 = (λ href, site_origin ++ href) <$> head (xpath_text c q_url).
Proof. unfold scrape. cbn. destruct (xpath_text c q_url); reflexivity. Qed.

(** C8 as stated fails on an absolute link: the origin is put in front
    of it as well, so the link is not kept as a usable URL. *)
Lemma C8_absolute_href_not_kept :
  let c := article true "Cottage" "https://www.zillow.com/homedetails/3" in
  xpath_text c q_url = ["https://www.zillow.com/homedetails/3"]
  ∧ url (scrape c).1.1
    = Some "https://www.zillow.comhttps://www.zillow.com/homedetails/3"
  ∧ url_as_claimed (xpath_text c q_url)
    = Some "https://www.zillow.com/homedetails/3"
  ∧ url (scrape c).1.1 ≠ url_as_claimed (xpath_text c q_url).
Proof. cbv zeta. repeat split; try reflexivity. vm_compute. discriminate. Qed.

(** ** Cookie names (lines 45-46) *)

Lemma cookie_name_cases (cookie : gmap string json) :
  cookie_name cookie =
  if truthy (dict_get cookie "name") then dict_get cookie "name"
  else if truthy (dict_get cookie "domain") then dict_get cookie "domain"
  else JStr "other".
Proof. reflexivity. Qed.

Lemma named_cookie_name (cookie : gmap string json) :
  named_cookie cookie !! "name" = Some (cookie_name cookie).
Proof. apply lookup_insert_eq. Qed.

(** C6, as amended.  An entry with neither attribute is given the name
    "other"; an entry with a domain and no name is given its domain
    value when that value is truthy, and "other" when it is falsy. *)
Theorem C6_default_name (cookie : gmap string json) :
  cookie !! "name" = None →
  (cookie !! "domain" = None → named_cookie cookie !! "name" = Some (JStr "other"))
  ∧ (∀ d, cookie !! "domain" = Some d → truthy d = true →
       named_cookie cookie !! "name" = Some d)
  ∧ (∀ d, cookie !! "domain" = Some d → truthy d = false →
       named_cookie cookie !! "name" = Some (JStr "other")).
Proof.
  intros Hname. rewrite named_cookie_name, cookie_name_cases.
  unfold dict_get. rewrite Hname. cbn.
  split; [| split].
  - intros ->. reflexivity.
  - intros d -> Hd. cbn. rewrite Hd. reflexivity.
  - intros d -> Hd. cbn. rewrite Hd. reflexivity.
Qed.

Lemma C6_witness :
  let cookie : gmap string json := {["domain" := JStr ".zillow.com"]} in
  (cookie !! "domain" = None → named_cookie cookie !! "name" = Some (JStr "other"))
  ∧ (∀ d, cookie !! "domain" = Some d → truthy d = true →
       named_cookie cookie !! "name" = Some d)
  ∧ (∀ d, cookie !! "domain" = Some d → truthy d = false →
       named_cookie cookie !! "name" = Some (JStr "other")).
Proof. apply (C6_default_name {["domain" := JStr ".zillow.com"]}). reflexivity. Defined.

(** C6 as stated fails when the domain is the empty string: the entry
    has a domain and no name, and its name is "other", not the domain
    value. *)
Lemma C6_empty_domain_gets_other :
  let cookie : gmap string json := {["domain" := JStr ""]} in
  cookie !! "name" = None
  ∧ cookie !! "domain" = Some (JStr "")
  ∧ named_cookie cookie !! "name" = Some (JStr "other")
  ∧ named_cookie cookie !! "name" ≠ cookie !! "domain".
Proof. cbv zeta. repeat split; try (vm_compute; reflexivity). vm_compute. discriminate. Qed.



Example falsy_name_takes_domain :
  cookie_name (<["name" := JStr ""]> {["domain" := JStr ".zillow.com"]})
  = JStr ".zillow.com".
Proof. vm_compute. reflexivity. Qed.

(** ** What a run writes, and what it hands to the browsers *)

Lemma pass_call_expected (url0 : string) (c : call) :
  pass_call url0 c → expected_call url0 c.
Proof. destruct c; cbn; tauto. Qed.

Section Guarantees.

Context `{Lxml} (env : Env) (input_data : InputData).

Lemma build_dir_written (q : path) :
  q `suffix_of` build_dir env → written env input_data q.
Proof. intros Hq. left. exact Hq. Qed.

Lemma output_written (name : string) :
  output_name input_data name → written env input_data (resolve env (cwd env) name).
Proof. intros Hname. right. exists name. split; [exact Hname | reflexivity]. Qed.

Lemma run_frame (fuel : nat) (w : world) :
  frame (written env input_data) w (parse_zillow_pages env fuel input_data w).2.
Proof.
  rule spec_world. eapply (run_keeps env _ input_data None); try reflexivity.
  - apply print_frame.
  - intros c _. apply record_call_frame.
  - apply mkdir_frame, build_dir_written.
  - intros name Hname. apply open_wb_frame, output_written, Hname.
  - intros name data Hname. apply write_frame, output_written, Hname.
  - intros b. split; apply record_call_frame.
Qed.

Lemma after_mkdir_dirs (b : browser_type) (filter_request : option string)
    (cookies_path : path) :
  keeps dirs_kept (cookie_data_list ← load_cookies env cookies_path;
                   fetch_loop env b input_data cookie_data_list filter_request).
Proof.
  eapply (after_mkdir_keeps env _ input_data filter_request).
  - apply print_dirs.
  - intros c _. apply record_call_dirs.
  - intros name _. apply open_wb_dirs.
  - intros name data _. apply write_dirs.
Qed.

Lemma parse_called (fuel : nat) (b : browser_type) (filter_request : option string)
    (w : world) :
  called (expected_call (search_url (zip_code input_data) filter_request)) w
    (parse env fuel b input_data filter_request w).2.
Proof.
  rule spec_world. eapply (parse_keeps env _ input_data filter_request).
  - apply print_called.
  - intros c Hc. apply record_call_called, pass_call_expected, Hc.
  - apply mkdir_called.
  - intros name _. apply open_wb_called.
  - intros name data _. apply write_called.
Qed.

(** Whatever the sort token, a run registers no cookie and hands to
    [goto] no string other than the default URL. *)
Lemma run_called (fuel : nat) (w : world) :
  called (expected_call (default_template (zip_code input_data))) w
    (parse_zillow_pages env fuel input_data w).2.
Proof.
  rule spec_world. eapply (run_keeps env _ input_data None); try reflexivity.
  - apply print_called.
  - intros c Hc. apply record_call_called, pass_call_expected, Hc.
  - apply mkdir_called.
  - intros name _. apply open_wb_called.
  - intros name data _. apply write_called.
  - intros b. split; apply record_call_called; exact I.
Qed.

(** [parse] from the point where the marker file has been found in the
    working directory. *)
Lemma parse_found (fuel : nat) (b : browser_type) (filter_request : option string)
    (w : world) :
  path_exists (fs w) (marker_file env) = true →
  parse env (S fuel) b input_data filter_request w
  = (mkdir (build_dir env) ≫= λ _,
       cookie_data_list ← load_cookies env (cookies_json env);
       fetch_loop env b input_data cookie_data_list filter_request) w.
Proof.
  intros Hex. unfold parse. rewrite bind_unfold. unfold search_marker at 1.
  rewrite find_pyproject_found by exact Hex.
  unfold cookie_phase. apply bind_assoc.
Qed.

(** Without the marker file in the working directory [parse] never
    gets past the search. *)
Lemma parse_diverges (fuel : nat) (b : browser_type) (filter_request : option string)
    (w : world) :
  path_exists (fs w) (marker_file env) = false →
  parse env fuel b input_data filter_request w = (Diverged, w).
Proof.
  intros Hex. unfold parse. rewrite bind_unfold. unfold search_marker at 1.
  rewrite find_pyproject_missing by exact Hex. reflexivity.
Qed.

Lemma write_csv_dirs (scraped_data : list listing) :
  keeps dirs_kept (write_csv env (csv_name input_data) scraped_data).
Proof.
  eapply (write_csv_keeps env _ input_data).
  - intros name _. apply open_wb_dirs.
  - intros name data _. apply write_dirs.
Qed.

Lemma engine_dirs (fuel : nat) (b : browser_type) :
  keeps dirs_kept (engine env fuel input_data b).
Proof.
  eapply (engine_keeps env _ input_data None); try reflexivity.
  - apply print_dirs.
  - intros c _. apply record_call_dirs.
  - apply mkdir_dirs.
  - intros name _. apply open_wb_dirs.
  - intros name data _. apply write_dirs.
  - intros b'. split; apply record_call_dirs.
Qed.

(** Once the marker file is found, [parse] ends with the build
    directory in place. *)
Lemma parse_makes_build_dir (fuel : nat) (b : browser_type)
    (filter_request : option string) (w : world) :
  (1 ≤ fuel)%nat →
  path_exists (fs w) (marker_file env) = true →
  fs w !! cwd env = Some Dir →
  fs w !! build_dir env = None →
  fs (parse env fuel b input_data filter_request w).2 !! build_dir env = Some Dir.
Proof.
  intros Hfuel Hex Hcwd Hbuild. destruct fuel as [|fuel]; [lia |].
  rewrite parse_found by exact Hex.
  pose proof (bind_after dirs_kept (mkdir (build_dir env))
    (λ _, cookie_data_list ← load_cookies env (cookies_json env);
          fetch_loop env b input_data cookie_data_list filter_request) w
    (λ _, after_mkdir_dirs b filter_request (cookies_json env)))
    as Hkept.
  apply Hkept. unfold mkdir. rewrite mkdir_p_unfold, Hbuild.
  unfold build_dir, joinpath. rewrite Hcwd. cbn. apply lookup_insert_eq.
Qed.

(** So does the run, when the first engine launches. *)
Lemma run_makes_build_dir (fuel : nat) (w : world) :
  launch_ok env chromium = true →
  (1 ≤ fuel)%nat →
  path_exists (fs w) (marker_file env) = true →
  fs w !! cwd env = Some Dir →
  fs w !! build_dir env = None →
  fs (parse_zillow_pages env fuel input_data w).2 !! build_dir env = Some Dir.
Proof.
  intros Hlaunch Hfuel Hex Hcwd Hbuild.
  unfold parse_zillow_pages. rewrite for_each_cons.
  apply (bind_after dirs_kept (engine env fuel input_data chromium)
           (for_each [firefox; webkit] (λ b _, engine env fuel input_data b)) w).
  { intros []. rule spec_for_each; [| trivial]. intros b [] _ _. apply engine_dirs. }
  unfold engine. rewrite bind_unfold. unfold launch. rewrite bind_unfold.
  unfold record_call at 1. rewrite Hlaunch. cbn [mret M_ret].
  apply (try_finally_after dirs_kept); [apply record_call_dirs |].
  apply (bind_after dirs_kept).
  { intros scraped_data. rule spec_seq; [apply print_dirs | apply write_csv_dirs]. }
  apply parse_makes_build_dir; assumption.
Qed.

End Guarantees.

(** C9.  When the marker file is found and [.build] is not yet under
    the project root, [parse] leaves that directory there, whatever the
    state of the cookie file and however the call ends, and so does
    every run whose first engine launches; and a run changes the
    filesystem nowhere but at that directory and its parents, at the
    five screenshot files and at the CSV file. *)
Theorem C9_build_directory_and_frame `{Lxml} (env : Env) (input_data : InputData)
    (filter_request : option string) (fuel : nat) (b : browser_type) (w : world) :
  (1 ≤ fuel)%nat →
  path_exists (fs w) (marker_file env) = true →
  fs w !! cwd env = Some Dir →
  fs w !! build_dir env = None →
  fs (parse env fuel b input_data filter_request w).2 !! build_dir env = Some Dir
  ∧ (launch_ok env chromium = true →
     fs (parse_zillow_pages env fuel input_data w).2 !! build_dir env = Some Dir)
  ∧ ∀ p : path,
      ¬ p `suffix_of` build_dir env →
      (∀ i, (i < 5)%nat → p ≠ resolve env (cwd env) (screenshot_name i)) →
      p ≠ resolve env (cwd env) (csv_name input_data) →
      fs (parse_zillow_pages env fuel input_data w).2 !! p = fs w !! p.
Proof.
  intros Hfuel Hex Hcwd Hbuild. split; [| split].
  - apply parse_makes_build_dir; assumption.
  - intros Hlaunch. apply run_makes_build_dir; assumption.
  - intros p Hnot_build Hnot_png Hnot_csv.
    apply (run_frame env input_data fuel w).
    intros [Hs | (name & [-> | (i & Hi & ->)] & ->)].
    + apply Hnot_build, Hs.
    + apply Hnot_csv. reflexivity.
    + apply (Hnot_png i); [| reflexivity].
      apply elem_of_seq in Hi. lia.
Qed.

Lemma C9_witness :
  let env := host project false quiet in
  let w := start bare_project in
  fs (parse env 1 chromium beverly_hills None w).2 !! build_dir env = Some Dir
  ∧ (launch_ok env chromium = true →
     fs (parse_zillow_pages env 1 beverly_hills w).2 !! build_dir env = Some Dir)
  ∧ ∀ p : path,
      ¬ p `suffix_of` build_dir env →
      (∀ i, (i < 5)%nat → p ≠ resolve env (cwd env) (screenshot_name i)) →
      p ≠ resolve env (cwd env) (csv_name beverly_hills) →
      fs (parse_zillow_pages env 1 beverly_hills w).2 !! p = fs w !! p.
Proof.
  apply (@C9_build_directory_and_frame toy_lxml (host project false quiet)
           beverly_hills None 1 chromium (start bare_project)).
  - lia.
  - vm_compute. reflexivity.
  - vm_compute. reflexivity.
  - vm_compute. reflexivity.
Defined.

(** ** A missing cookie file (lines 36-51) *)

(** C7, as amended.  With the marker file found, the build directory
    present or creatable and no cookie file in it, cookie loading
    prints its message, returns the empty list and leaves the browsers
    alone; [parse] goes on into the five passes with no cookie to
    register. *)
Theorem C7_missing_cookie_file `{Lxml} (env : Env) (input_data : InputData)
    (filter_request : option string) (fuel : nat) (b : browser_type) (w : world) :
  (1 ≤ fuel)%nat →
  path_exists (fs w) (marker_file env) = true →
  fs w !! cwd env = Some Dir →
  (∀ data, fs w !! build_dir env ≠ Some (File data)) →
  fs w !! cookies_json env = None →
  ∃ w1,
    (pyproject ← search_marker env fuel; cookie_phase env pyproject) w = (Normal [], w1)
    ∧ stdout w1 = (stdout w ++ [cookie_file_message])%list
    ∧ calls w1 = calls w
    ∧ parse env fuel b input_data filter_request w
      = fetch_loop env b input_data [] filter_request w1.
Proof.
  intros Hfuel Hex Hcwd Hbuild Hcookies.
  destruct fuel as [|fuel]; [lia |].
  assert (∃ fsys, mkdir_p (fs w) (build_dir env) = inr fsys
                  ∧ fsys !! cookies_json env = None) as (fsys & Hmk & Hnone).
  { rewrite mkdir_p_unfold.
    destruct (fs w !! build_dir env) as [[|data]|] eqn:Eb.
    - exists (fs w). split; [reflexivity | exact Hcookies].
    - destruct (Hbuild data). reflexivity.
    - unfold build_dir, joinpath in *. rewrite Hcwd. eexists. split; [reflexivity |].
      rewrite lookup_insert_ne; [exact Hcookies |].
      unfold cookies_json, build_dir, joinpath. intros Heq.
      apply (f_equal length) in Heq. cbn in Heq. lia. }
  exists (World fsys (stdout w ++ [cookie_file_message]) (calls w)).
  assert (load_cookies env (cookies_json env) (World fsys (stdout w) (calls w))
          = (Normal [], World fsys (stdout w ++ [cookie_file_message]) (calls w)))
    as Hload.
  { unfold load_cookies, try_except_IOError. rewrite bind_unfold.
    unfold read_file. cbn. rewrite Hnone. reflexivity. }
  split; [| split; [reflexivity | split; [reflexivity |]]].
  - rewrite bind_unfold. unfold search_marker.
    rewrite find_pyproject_found by exact Hex.
    unfold cookie_phase. rewrite bind_unfold. unfold mkdir at 1.
    change (joinpath (parent (joinpath (cwd env) "pyproject.toml")) ".build")
      with (build_dir env).
    rewrite Hmk. exact Hload.
  - rewrite parse_found by exact Hex.
    rewrite bind_unfold. unfold mkdir at 1. rewrite Hmk.
    rewrite bind_unfold, Hload. reflexivity.
Qed.

Lemma C7_witness :
  let env := host project false quiet in
  let w := start bare_project in
  ∃ w1,
    (pyproject ← search_marker env 1; cookie_phase env pyproject) w = (Normal [], w1)
    ∧ stdout w1 = (stdout w ++ [cookie_file_message])%list
    ∧ calls w1 = calls w
    ∧ parse env 1 chromium beverly_hills None w
      = fetch_loop env chromium beverly_hills [] None w1.
Proof.
  apply (@C7_missing_cookie_file toy_lxml (host project false quiet)
           beverly_hills None 1 chromium (start bare_project)).
  - lia.
  - vm_compute. reflexivity.
  - vm_compute. reflexivity.
  - intros data. vm_compute. discriminate.
  - vm_compute. reflexivity.
Defined.

(** C7 as stated fails when a regular file sits where the build
    directory goes: the cookie file is absent, [mkdir] raises outside
    the [try], nothing is printed and the run ends on the exception. *)
Lemma C7_build_path_taken_by_a_file :
  let env := host project false quiet in
  let w := start project_with_build_file in
  path_exists (fs w) (marker_file env) = true
  ∧ fs w !! cookies_json env = None
  ∧ parse env 1 chromium beverly_hills None w = (Raised FileExistsError, w)
  ∧ (main env 1 ["90210"] w).1 = Exited 1
  ∧ stdout (main env 1 ["90210"] w).2 = [].
Proof. cbv zeta. repeat split; vm_compute; reflexivity. Qed.

(** ** The directory search does not walk upward (lines 29-34) *)

Lemma engine_diverges `{Lxml} (env : Env) (input_data : InputData) (fuel : nat)
    (b : browser_type) (w : world) :
  launch_ok env b = true →
  path_exists (fs w) (marker_file env) = false →
  engine env fuel input_data b w
  = (Diverged, World (fs w) (stdout w) (calls w ++ [Launch b])).
Proof.
  intros Hlaunch Hex. unfold engine, launch. rewrite !bind_unfold.
  unfold record_call at 1. rewrite Hlaunch. cbn.
  unfold try_finally. rewrite bind_unfold, parse_diverges by exact Hex.
  reflexivity.
Qed.

(** C3 at a working directory below the project root: the marker file
    is in the parent directory, and whatever the number of rounds
    allowed, the search is still going; the process hangs after the
    first browser launch, having printed nothing. *)
Theorem C3_search_never_leaves_cwd (fuel : nat) :
  let env := host subdir false quiet in
  let w := start project_with_subdir in
  path_exists (fs w) (joinpath (parent (cwd env)) "pyproject.toml") = true
  ∧ find_pyproject fuel (fs w) (Some (cwd env)) None = None
  ∧ main env fuel ["90210"] w = (Hangs, World (fs w) [] [Launch chromium]).
Proof.
  cbv zeta.
  assert (path_exists project_with_subdir (joinpath subdir "pyproject.toml") = false)
    as Hmissing by (vm_compute; reflexivity).
  split; [vm_compute; reflexivity |]. split.
  - apply find_pyproject_missing, Hmissing.
  - unfold main. change (parse_args _ _) with (Namespace "90210" sort_default).
    unfold parse_zillow_pages. rewrite for_each_cons, bind_unfold.
    rewrite engine_diverges by (reflexivity || exact Hmissing). reflexivity.
Qed.

(** ** The command line (lines 164-176) *)

Section CommandLine.

Context (env : Env).

Lemma parse_args_no_zipcode : parse_args env [] = UsageError.
Proof. reflexivity. Qed.

Lemma parse_args_bad_sort (zipcode token : string) (extras : list string) :
  token ∉ sort_choices →
  parse_args env (zipcode :: token :: extras) = UsageError
  ∨ parse_args env (zipcode :: token :: extras) = OptionSyntax.
Proof.
  intros Hbad. unfold parse_args.
  destruct (existsb _ _); [right; reflexivity | left].
  unfold check_value. rewrite bool_decide_eq_false_2 by exact Hbad. reflexivity.
Qed.

Lemma parse_args_zipcode_alone (zipcode : string) :
  PyStr.startswith "-" zipcode = false →
  parse_args env [zipcode]
  = if checks_default env then UsageError else Namespace zipcode sort_default.
Proof.
  intros Hplain. unfold parse_args. cbn [existsb]. rewrite Hplain. cbn.
  destruct (checks_default env); reflexivity.
Qed.

Lemma parse_args_accepts (zipcode token : string) :
  PyStr.startswith "-" zipcode = false →
  token ∈ sort_choices →
  parse_args env [zipcode; token] = Namespace zipcode token.
Proof.
  intros Hplain Hgood. unfold parse_args. cbn [existsb]. rewrite Hplain.
  assert (PyStr.startswith "-" token = false) as ->.
  { unfold sort_choices in Hgood. set_unfold.
    destruct Hgood as [-> | [-> | []]]; reflexivity. }
  unfold check_value. rewrite bool_decide_eq_true_2 by exact Hgood. reflexivity.
Qed.

End CommandLine.

(** C4 at the command line [90210] on an interpreter whose [argparse]
    validates the default of the omitted [sort]: the default
    ["homes for you"] is not one of the choices, and the process ends
    with a usage error before anything else is done. *)
Theorem C4_zipcode_alone_is_rejected (fuel : nat) (w : world) :
  check_value sort_default = false
  ∧ main (host project true quiet) fuel ["90210"] w = (Exited 2, w).
Proof. split; reflexivity. Qed.

(** ** The sort token never reaches [parse] (line 135) *)

(** C2 at the command line [90210 newest]: the run completes, and each
    of its fifteen navigations goes to the default URL, which is not
    the URL of the newest-first template. *)
Theorem C2_sort_token_is_ignored :
  let r := main (host project false quiet) 1 ["90210"; "newest"] (start bare_project) in
  r.1 = Exited 0
  ∧ navigations (calls r.2) = replicate 15 (UStr (default_template "90210"))
  ∧ default_template "90210" ≠ newest_template "90210"
  ∧ search_url "90210" (Some "newest") = newest_template "90210".
Proof.
  cbv zeta. split; [vm_compute; reflexivity |].
  split; [vm_compute; reflexivity |].
  split; [vm_compute; discriminate | reflexivity].
Qed.

(** The URL function itself follows the three templates. *)
Lemma search_url_templates (zip : string) (filter_request : option string) :
  search_url zip filter_request =
  match filter_request with
  | Some token =>
      if String.eqb token "newest" then newest_template zip
      else if String.eqb token "cheapest" then cheapest_template zip
      else default_template zip
  | None => default_template zip
  end.
Proof.
  unfold search_url. destruct filter_request as [token|]; [| reflexivity].
  destruct (String.eqb_spec token "newest") as [-> | Hn]; [reflexivity |].
  rewrite bool_decide_eq_false_2 by congruence.
  destruct (String.eqb_spec token "cheapest") as [-> | Hc]; [reflexivity |].
  rewrite bool_decide_eq_false_2 by congruence. reflexivity.
Qed.

(** ** What the CSV file holds after a complete run *)

Lemma string_app_nil_r (a : string) : (a ++ "")%string = a.
Proof.
  induction a as [|x a IH]; [reflexivity |].
  change (String x (a ++ "") = String x a)%string. rewrite IH. reflexivity.
Qed.

Lemma open_wb_normal (p : path) (w w' : world) :
  open_wb p w = (Normal tt, w') → fs w' !! p = Some (File "").
Proof.
  unfold open_wb.
  destruct (fs w !! p) as [[|old]|]; [discriminate | |];
    (destruct (fs w !! parent p) as [[|data]|]; [| discriminate | discriminate]);
    intros [= <-]; apply lookup_insert_eq.
Qed.

Lemma write_normal (p : path) (data old : string) (w w' : world) :
  fs w !! p = Some (File old) →
  write p data w = (Normal tt, w') → fs w' !! p = Some (File (old ++ data)).
Proof.
  intros Hold. unfold write. rewrite Hold. intros [= <-]. apply lookup_insert_eq.
Qed.

Ltac step H := apply bind_normal in H as (? & ? & ? & H).

Section Complete.

Context `{Lxml} (env : Env).

Lemma write_rows (p : path) (rows : list listing) (w w' : world) (old : string) :
  fs w !! p = Some (File old) →
  for_each rows (λ row _, write p (writerow env (row_cells row))) tt w = (Normal tt, w') →
  fs w' !! p = Some (File (old ++ csv_rows env rows)).
Proof.
  revert w old. induction rows as [|row rest IH]; intros w old Hold Hrun.
  - cbn in Hrun. injection Hrun as <-. cbn. rewrite string_app_nil_r. exact Hold.
  - rewrite for_each_cons in Hrun. step Hrun. destruct x.
    cbn [csv_rows foldr]. rewrite <- string_app_assoc.
    eapply IH; [| exact Hrun]. eapply write_normal; eassumption.
Qed.

Lemma write_csv_normal (name : string) (rows : list listing) (w w' : world) :
  write_csv env name rows w = (Normal tt, w') →
  fs w' !! resolve env (cwd env) name = Some (File (csv_text env rows)).
Proof.
  unfold write_csv. intros Hrun. step Hrun. destruct x. step Hrun. destruct x.
  unfold csv_text. eapply write_rows; [| exact Hrun].
  eapply (write_normal _ _ ""); [| eassumption].
  eapply open_wb_normal. eassumption.
Qed.

Lemma goto_content_normal (b : browser_type) (i : nat) (v : url_value)
    (page_data : string) (w w' : world) :
  goto_content env b i v w = (Normal page_data, w') →
  ∃ u, v = UStr u ∧ page_content env b i u = Some page_data.
Proof.
  unfold goto_content. intros Hrun. step Hrun.
  destruct v as [u|hrefs]; [| discriminate].
  destruct (page_content env b i u) as [pd|] eqn:Hpage; [| discriminate].
  step Hrun. injection Hrun as <- _. exists u. split; [reflexivity | exact Hpage].
Qed.

(** A pass that returns was given a string to navigate to; it appends
    the listings of the page at that address. *)
Lemma fetch_normal (b : browser_type) (input_data : InputData)
    (cookie_data_list : list (gmap string json)) (i : nat)
    (v v' : url_value) (acc acc' : list listing) (w w' : world) :
  fetch env b input_data cookie_data_list i (v, acc) w = (Normal (v', acc'), w') →
  ∃ u, v = UStr u
       ∧ acc' = (acc ++ pass_records env u b i)%list
       ∧ url_from u (v', acc').
Proof.
  unfold fetch. intros Hrun. do 3 step Hrun.
  apply bind_normal in Hrun as (page_data & w4 & Hgoto & Hrun).
  do 3 step Hrun.
  apply goto_content_normal in Hgoto as (u & -> & Hpage).
  exists u. split; [reflexivity |].
  unfold pass_records. rewrite Hpage.
  destruct (fromstring page_data) as [parser|]; [| discriminate].
  injection Hrun as Hscan _.
  pose proof (scan_url_from u (xpath_nodes parser q_results) (UStr u) acc
                (or_introl eq_refl)) as Hfrom.
  pose proof (scan_appends (xpath_nodes parser q_results) (UStr u) (UStr "") acc)
    as Happ.
  rewrite Hscan in Hfrom, Happ. split; [exact Happ | exact Hfrom].
Qed.

Lemma fetch_passes_normal (b : browser_type) (input_data : InputData)
    (cookie_data_list : list (gmap string json)) (u0 : string) (l : list nat)
    (v v' : url_value) (acc acc' : list listing) (w w' : world) :
  url_from u0 (v, acc) →
  for_each l (fetch env b input_data cookie_data_list) (v, acc) w
  = (Normal (v', acc'), w') →
  acc' = (acc ++ flat_map (pass_records env u0 b) l)%list.
Proof.
  revert v acc w. induction l as [|i rest IH]; intros v acc w Hfrom Hrun.
  - cbn in Hrun. injection Hrun as _ <- _. cbn. rewrite app_nil_r. reflexivity.
  - rewrite for_each_cons in Hrun.
    apply bind_normal in Hrun as ([v1 acc1] & w1 & Hfetch & Hrun).
    apply fetch_normal in Hfetch as (u & -> & -> & Hfrom1).
    assert (u = u0) as ->.
    { destruct Hfrom as [Hu | [hrefs Hu]]; cbn in Hu; congruence. }
    rewrite (IH _ _ _ Hfrom1 Hrun). cbn [flat_map]. rewrite app_assoc. reflexivity.
Qed.

Lemma parse_normal (fuel : nat) (b : browser_type) (input_data : InputData)
    (filter_request : option string) (scraped_data : list listing) (w w' : world) :
  parse env fuel b input_data filter_request w = (Normal scraped_data, w') →
  scraped_data
  = flat_map (pass_records env (search_url (zip_code input_data) filter_request) b)
      passes.
Proof.
  unfold parse. intros Hrun. do 2 step Hrun.
  apply bind_normal in Hrun as ([v' acc'] & w3 & Hloop & Hrun).
  injection Hrun as <- _.
  apply (fetch_passes_normal _ _ _ (search_url (zip_code input_data) filter_request))
    in Hloop; [exact Hloop | left; reflexivity].
Qed.

(** An engine that gets through leaves its own listings in the CSV
    file. *)
Lemma engine_normal (fuel : nat) (input_data : InputData) (b : browser_type)
    (w w' : world) :
  engine env fuel input_data b w = (Normal tt, w') →
  fs w' !! resolve env (cwd env) (csv_name input_data)
  = Some (File (csv_text env (engine_records env (zip_code input_data) b))).
Proof.
  unfold engine. intros Hrun. step Hrun.
  apply try_finally_normal in Hrun as (w2 & Hbody & Hclose).
  injection Hclose as <-. cbn [fs].
  apply bind_normal in Hbody as (scraped_data & w3 & Hparse & Hbody).
  step Hbody. apply parse_normal in Hparse as ->.
  apply write_csv_normal in Hbody. exact Hbody.
Qed.

(** A pass that is handed the hrefs of a listing instead of the search
    URL ends on the refusal of [goto]. *)
Lemma fetch_refused (b : browser_type) (input_data : InputData) (i : nat)
    (hrefs : list string) (acc : list listing) (w : world) :
  accepts_cookies env [] = true →
  (fetch env b input_data [] i (UList hrefs, acc) w).1 = Raised PlaywrightError.
Proof.
  intros Hok. unfold fetch, add_cookies, goto_content.
  rewrite !bind_unfold. cbn. rewrite Hok. reflexivity.
Qed.

End Complete.

(** When the first page shows a listing, line 100 leaves its hrefs in
    [url]; the second pass hands them to [goto] and the run ends there
    with an exception. *)
Example listing_in_first_pass_ends_run :
  let r := main (host project false busy) 1 ["90210"] (start bare_project) in
  r.1 = Exited 1
  ∧ navigations (calls r.2)
    = [UStr (default_template "90210"); UList ["/homedetails/1"]]
  ∧ fs r.2 !! joinpath project "properties-90210.csv" = None.
Proof. cbv zeta. repeat split; vm_compute; reflexivity. Qed.

(** C1, as amended.  After a complete run the file
    [properties-<zip>.csv] holds the header and the listings of the five
    passes of the last engine, in the order of extraction. *)
Theorem C1_csv_holds_last_engine `{Lxml} (env : Env) (input_data : InputData)
    (fuel : nat) (w w' : world) :
  parse_zillow_pages env fuel input_data w = (Normal tt, w') →
  fs w' !! resolve env (cwd env) ("properties-" ++ zip_code input_data ++ ".csv")
  = Some (File (csv_text env (engine_records env (zip_code input_data) webkit))).
Proof.
  unfold parse_zillow_pages. rewrite !for_each_cons. intros Hrun.
  do 2 step Hrun. apply bind_normal in Hrun as ([] & w3 & Hwebkit & Hrun).
  injection Hrun as <-. apply (engine_normal env fuel input_data webkit _ _ Hwebkit).
Qed.

Lemma C1_witness :
  let env := host project false webkit_last in
  let r := parse_zillow_pages env 1 beverly_hills (start bare_project) in
  fs r.2 !! resolve env (cwd env) "properties-90210.csv"
  = Some (File (csv_text env (engine_records env "90210" webkit))).
Proof.
  apply (@C1_csv_holds_last_engine toy_lxml (host project false webkit_last)
           beverly_hills 1 (start bare_project)).
  vm_compute. reflexivity.
Defined.

(** C1 as stated fails when an earlier engine finds a listing and the
    last one finds none: the run is complete, a pass has extracted a
    listing, and the file holds the header alone. *)
Lemma C1_earlier_engines_are_overwritten :
  let env := host project false chromium_only in
  let r := parse_zillow_pages env 1 beverly_hills (start bare_project) in
  let csv_file := resolve env (cwd env) "properties-90210.csv" in
  r.1 = Normal tt
  ∧ title <$> all_records env "90210" = [Some "Bungalow"]
  ∧ fs r.2 !! csv_file = Some (File (csv_text env []))
  ∧ fs r.2 !! csv_file ≠ Some (File (csv_text env (all_records env "90210"))).
Proof.
  cbv zeta. repeat split; try (vm_compute; reflexivity). vm_compute. discriminate.
Qed.

(** * Further properties of the code *)

(** ** The directory search, in general (lines 29-36) *)

(** X1.  The search for the marker file returns exactly when the file
    is in the directory the search starts from, after one round, and
    then with that very path: the project root it finds is always the
    working directory, and [pyproject] is never [None] after the
    loop. *)
Theorem search_returns_iff_marker_in_cwd (fuel : nat) (fsys : gmap path node)
    (r : path) (pyproject found : option path) :
  find_pyproject fuel fsys (Some r) pyproject = Some found
  ↔ (1 ≤ fuel)%nat
    ∧ path_exists fsys (joinpath r "pyproject.toml") = true
    ∧ found = Some (joinpath r "pyproject.toml").
Proof.
  split.
  - intros Hfind. pose proof (find_pyproject_result _ _ _ _ _ Hfind) as [-> Hex].
    split; [| split; [exact Hex | reflexivity]].
    destruct fuel; [discriminate Hfind | lia].
  - intros (Hfuel & Hex & ->). destruct fuel as [|fuel]; [lia |].
    apply find_pyproject_found, Hex.
Qed.

(** ** Cookie names, in general (lines 45-46) *)

Lemma cookie_name_truthy (cookie : gmap string json) :
  truthy (cookie_name cookie) = true.
Proof.
  rewrite cookie_name_cases.
  destruct (truthy (dict_get cookie "name")) eqn:Hn; [exact Hn |].
  destruct (truthy (dict_get cookie "domain")) eqn:Hd; [exact Hd | reflexivity].
Qed.

(** X2.  The name given to an entry is never falsy (never [None], never
    the empty string), and it is the entry's own name, its domain value
    or the string "other". *)
Theorem cookie_name_is_truthy_and_known (cookie : gmap string json) :
  truthy (cookie_name cookie) = true
  ∧ (cookie !! "name" = Some (cookie_name cookie)
     ∨ cookie !! "domain" = Some (cookie_name cookie)
     ∨ cookie_name cookie = JStr "other").
Proof.
  split; [apply cookie_name_truthy |].
  rewrite cookie_name_cases. unfold dict_get.
  destruct (cookie !! "name") as [n|]; cbn.
  - destruct (truthy n); [left; reflexivity |].
    destruct (cookie !! "domain") as [d|]; cbn; [| right; right; reflexivity].
    destruct (truthy d); [right; left; reflexivity | right; right; reflexivity].
  - destruct (cookie !! "domain") as [d|]; cbn; [| right; right; reflexivity].
    destruct (truthy d); [right; left; reflexivity | right; right; reflexivity].
Qed.

(** X3.  Naming an entry changes its [name] attribute only, and naming
    it a second time changes nothing. *)
Theorem naming_is_idempotent (cookie : gmap string json) :
  (∀ key, key ≠ "name" → named_cookie cookie !! key = cookie !! key)
  ∧ named_cookie (named_cookie cookie) = named_cookie cookie.
Proof.
  split.
  - intros key Hkey. unfold named_cookie. apply lookup_insert_ne. congruence.
  - assert (cookie_name (named_cookie cookie) = cookie_name cookie) as Hsame.
    { rewrite (cookie_name_cases (named_cookie cookie)). unfold dict_get at 1 2.
      rewrite named_cookie_name. cbn. rewrite cookie_name_truthy. reflexivity. }
    unfold named_cookie at 1. rewrite Hsame. unfold named_cookie.
    apply insert_insert_eq.
Qed.

(** ** Cookie files (lines 40-51) *)

Section CookieFiles.

Context `{Lxml} (env : Env).

Lemma load_entries_raise (first : json) (rest : list json) (w : world) :
  for_each (first :: rest) load_cookie [] w = (Raised (entry_error first), w).
Proof.
  rewrite for_each_cons, bind_unfold. destruct first; reflexivity.
Qed.

Lemma load_cookies_read (cookies_path : path) (text : string) (w : world) :
  fs w !! cookies_path = Some (File text) →
  load_cookies env cookies_path w =
  match json_load env text with
  | None => (Raised JSONDecodeError, w)
  | Some (JArr []) => (Normal [], w)
  | Some (JArr (first :: _)) => (Raised (entry_error first), w)
  | Some _ => (Normal [], w)
  end.
Proof.
  intros Hfile. unfold load_cookies, try_except_IOError. rewrite bind_unfold.
  unfold read_file. rewrite Hfile.
  destruct (json_load env text) as [[| | | | |[|first rest]|]|]; try reflexivity.
  rewrite load_entries_raise. destruct first; reflexivity.
Qed.

(** [parse] from the point where the build directory is in place. *)
Lemma parse_with_build_dir (fuel : nat) (b : browser_type) (input_data : InputData)
    (filter_request : option string) (w : world) (fsys : gmap path node) :
  (1 ≤ fuel)%nat →
  path_exists (fs w) (marker_file env) = true →
  mkdir_p (fs w) (build_dir env) = inr fsys →
  parse env fuel b input_data filter_request w
  = (cookie_data_list ← load_cookies env (cookies_json env);
     fetch_loop env b input_data cookie_data_list filter_request)
      (World fsys (stdout w) (calls w)).
Proof.
  intros Hfuel Hex Hmk. destruct fuel as [|fuel]; [lia |].
  rewrite parse_found by exact Hex. rewrite bind_unfold.
  unfold mkdir at 1. rewrite Hmk. reflexivity.
Qed.

End CookieFiles.

(** X4.  A cookie file that holds a non-empty JSON array ends [parse]
    before any browser call: on [NameError] when the first entry is an
    object (the name [SetCookieParam] is not bound at run time), on
    [AttributeError] when it is anything else.  Nothing is printed and
    only the build directory may have been created. *)
Theorem saved_cookies_end_parse `{Lxml} (env : Env) (fuel : nat) (b : browser_type)
    (input_data : InputData) (filter_request : option string) (w : world)
    (fsys : gmap path node) (text : string) (first : json) (rest : list json) :
  (1 ≤ fuel)%nat →
  path_exists (fs w) (marker_file env) = true →
  mkdir_p (fs w) (build_dir env) = inr fsys →
  fsys !! cookies_json env = Some (File text) →
  json_load env text = Some (JArr (first :: rest)) →
  parse env fuel b input_data filter_request w
  = (Raised (entry_error first), World fsys (stdout w) (calls w)).
Proof.
  intros Hfuel Hex Hmk Hfile Hjson.
  rewrite (parse_with_build_dir env fuel b input_data filter_request w fsys)
    by assumption.
  rewrite bind_unfold, (load_cookies_read env _ text) by exact Hfile.
  rewrite Hjson. reflexivity.
Qed.

Lemma saved_cookies_end_parse_witness :
  let env := host project false quiet in
  let w := start (project_with_cookies "[{}]") in
  parse env 1 chromium beverly_hills None w
  = (Raised NameError, World (project_with_cookies "[{}]") [] []).
Proof.
  apply (@saved_cookies_end_parse toy_lxml (host project false quiet) 1 chromium
           beverly_hills None (start (project_with_cookies "[{}]"))
           (project_with_cookies "[{}]") "[{}]" (JObj ∅) []).
  - lia.
  - vm_compute. reflexivity.
  - vm_compute. reflexivity.
  - vm_compute. reflexivity.
  - reflexivity.
Defined.

(** X5.  A cookie file whose JSON is an empty array or is not an array
    at all is passed over in silence: cookie loading returns the empty
    list, prints nothing and changes nothing. *)
Theorem other_json_is_ignored (env : Env) (cookies_path : path) (text : string)
    (document : json) (w : world) :
  fs w !! cookies_path = Some (File text) →
  json_load env text = Some document →
  (∀ first rest, document ≠ JArr (first :: rest)) →
  load_cookies env cookies_path w = (Normal [], w).
Proof.
  intros Hfile Hjson Hshape. rewrite (load_cookies_read env _ text) by exact Hfile.
  rewrite Hjson. destruct document as [| | | | |[|first rest]|]; try reflexivity.
  destruct (Hshape first rest). reflexivity.
Qed.

Lemma other_json_is_ignored_witness :
  let w := start (project_with_cookies "{}") in
  load_cookies (host project false quiet) (cookies_json (host project false quiet)) w
  = (Normal [], w).
Proof.
  apply (other_json_is_ignored (host project false quiet) _ "{}" (JObj ∅)).
  - vm_compute. reflexivity.
  - reflexivity.
  - intros first rest. discriminate.
Defined.

(** X6.  What [except IOError] covers.  A directory at the path of the
    cookie file counts like a missing file: the message is printed and
    the list is empty.  A file that is not JSON does not: the decoding
    error leaves cookie loading uncaught, with nothing printed. *)
Theorem only_io_errors_are_caught (env : Env) (cookies_path : path) (w : world) :
  (fs w !! cookies_path = Some Dir →
   load_cookies env cookies_path w
   = (Normal [], World (fs w) (stdout w ++ [cookie_file_message]) (calls w)))
  ∧ (∀ text, fs w !! cookies_path = Some (File text) →
       json_load env text = None →
       load_cookies env cookies_path w = (Raised JSONDecodeError, w)).
Proof.
  split.
  - intros Hdir. unfold load_cookies, try_except_IOError. rewrite bind_unfold.
    unfold read_file. rewrite Hdir. reflexivity.
  - intros text Hfile Hjson. rewrite (load_cookies_read env _ text) by exact Hfile.
    rewrite Hjson. reflexivity.
Qed.

Lemma only_io_errors_are_caught_witness :
  let env := host project false quiet in
  load_cookies env (cookies_json env) (start project_with_cookie_dir)
  = (Normal [], World project_with_cookie_dir [cookie_file_message] [])
  ∧ load_cookies env (cookies_json env) (start (project_with_cookies "not json"))
    = (Raised JSONDecodeError, start (project_with_cookies "not json")).
Proof.
  split.
  - apply (proj1 (only_io_errors_are_caught (host project false quiet)
                    (cookies_json (host project false quiet))
                    (start project_with_cookie_dir))).
    vm_compute. reflexivity.
  - apply (proj2 (only_io_errors_are_caught (host project false quiet)
                    (cookies_json (host project false quiet))
                    (start (project_with_cookies "not json"))) "not json").
    + vm_compute. reflexivity.
    + reflexivity.
Defined.

(** ** The scan of a page, in general (lines 77-125) *)

Section Scan.

Context `{Lxml}.

Lemma scan_step (e : element) (rest : list element) (v : url_value)
    (acc : list listing) :
  scan (e :: rest) v acc =
  if isinstance_HtmlElement e
  then scan rest (UList (hrefs_of e))
         (if (scrape e).2 then (acc ++ [record_of e])%list else acc)
  else scan rest v acc.
Proof. rewrite scan_cons. destruct (isinstance_HtmlElement e); reflexivity. Qed.

Lemma scan_records (search_results : list element) (v : url_value)
    (acc : list listing) :
  (scan search_results v acc).2
  = (acc ++ (record_of <$> filter (λ c, kept c = true) search_results))%list.
Proof.
  revert v acc. induction search_results as [|e rest IH]; intros v acc.
  - cbn. rewrite app_nil_r. reflexivity.
  - rewrite scan_step, filter_cons.
    destruct (isinstance_HtmlElement e) eqn:Hhtml.
    + destruct (scrape e).2 eqn:Hsale.
      * rewrite decide_True by (unfold kept; rewrite Hhtml, Hsale; reflexivity).
        rewrite IH, fmap_cons, <- app_assoc. reflexivity.
      * rewrite decide_False by (unfold kept; rewrite Hhtml, Hsale; discriminate).
        apply IH.
    + rewrite decide_False by (unfold kept; rewrite Hhtml; discriminate). apply IH.
Qed.

Lemma scan_url (search_results : list element) (v : url_value)
    (acc : list listing) :
  (scan search_results v acc).1
  = match last (filter (λ c, isinstance_HtmlElement c = true) search_results) with
    | Some c => UList (hrefs_of c)
    | None => v
    end.
Proof.
  revert v acc. induction search_results as [|e rest IH]; intros v acc.
  - reflexivity.
  - rewrite scan_step, filter_cons.
    destruct (isinstance_HtmlElement e) eqn:Hhtml.
    + rewrite decide_True by reflexivity. rewrite IH, last_cons.
      destruct (last _); reflexivity.
    + rewrite decide_False by discriminate. apply IH.
Qed.

End Scan.

(** X7.  The scan of a page appends one record for each container that
    is an [HtmlElement] and carries the for-sale marker, in document
    order, behind the records it was given; it drops and reorders
    nothing. *)
Theorem scan_appends_kept_in_order `{Lxml} (search_results : list element)
    (v : url_value) (acc : list listing) :
  (scan search_results v acc).2
  = (acc ++ (record_of <$> filter (λ c, kept c = true) search_results))%list.
Proof. apply scan_records. Qed.

(** X8.  After the scan of a page the variable [url] holds the hrefs of
    the last [HtmlElement] container of the page, for sale or not; it
    still holds what it held before only when the page has no such
    container. *)
Theorem scan_rebinds_url `{Lxml} (search_results : list element)
    (v : url_value) (acc : list listing) :
  (scan search_results v acc).1
  = match last (filter (λ c, isinstance_HtmlElement c = true) search_results) with
    | Some c => UList (hrefs_of c)
    | None => v
    end.
Proof. apply scan_url. Qed.

(** ** Which pages a returning [parse] has seen (lines 64-127) *)

Section Pages.

Context `{Lxml} (env : Env).

Lemma pass_records_scan (url0 : string) (b : browser_type) (i : nat) :
  pass_records env url0 b i
  = record_of <$> filter (λ c, kept c = true) (page_results env url0 b i).
Proof.
  unfold pass_records, page_results.
  destruct (page_content env b i url0) as [page_data|]; [| reflexivity].
  destruct (fromstring page_data) as [parser|]; [| reflexivity].
  rewrite scan_records. reflexivity.
Qed.

Lemma no_element_none_kept (search_results : list element) :
  filter (λ c, isinstance_HtmlElement c = true) search_results = [] →
  filter (λ c, kept c = true) search_results = [].
Proof.
  induction search_results as [|e rest IH]; [reflexivity |].
  rewrite !filter_cons.
  destruct (isinstance_HtmlElement e) eqn:Hhtml.
  - rewrite decide_True by reflexivity. discriminate.
  - rewrite decide_False by discriminate.
    rewrite decide_False by (unfold kept; rewrite Hhtml; discriminate).
    exact IH.
Qed.

(** A pass that returns has scanned the page at the string it was
    given. *)
Lemma fetch_normal_scan (b : browser_type) (input_data : InputData)
    (cookie_data_list : list (gmap string json)) (i : nat)
    (v : url_value) (acc : list listing) (vars : url_value * list listing)
    (w w' : world) :
  fetch env b input_data cookie_data_list i (v, acc) w = (Normal vars, w') →
  ∃ u, v = UStr u ∧ vars = scan (page_results env u b i) (UStr u) acc.
Proof.
  unfold fetch. intros Hrun. do 3 step Hrun.
  apply bind_normal in Hrun as (page_data & w4 & Hgoto & Hrun).
  do 3 step Hrun.
  apply goto_content_normal in Hgoto as (u & -> & Hpage).
  exists u. split; [reflexivity |].
  unfold page_results. rewrite Hpage.
  destruct (fromstring page_data) as [parser|]; [| discriminate].
  injection Hrun as <- _. reflexivity.
Qed.

Lemma fetch_passes_pages (b : browser_type) (input_data : InputData)
    (cookie_data_list : list (gmap string json)) (u0 : string) (l : list nat)
    (acc : list listing) (vars : url_value * list listing) (w w' : world) :
  for_each l (fetch env b input_data cookie_data_list) (UStr u0, acc) w
  = (Normal vars, w') →
  ∀ i, i ∈ removelast l →
    filter (λ c, isinstance_HtmlElement c = true) (page_results env u0 b i) = [].
Proof.
  revert acc w. induction l as [|i rest IH]; intros acc w Hrun i' Hi'.
  - cbn in Hi'. apply elem_of_nil in Hi'. destruct Hi'.
  - destruct rest as [|j rest]; [cbn in Hi'; apply elem_of_nil in Hi'; destruct Hi' |].
    rewrite for_each_cons in Hrun.
    apply bind_normal in Hrun as ([v1 acc1] & w1 & Hfetch & Hrun).
    apply fetch_normal_scan in Hfetch as (u & [= <-] & Hscan).
    pose proof Hrun as Hnext. rewrite for_each_cons in Hnext.
    apply bind_normal in Hnext as (vars2 & w2 & Hfetch2 & _).
    apply fetch_normal_scan in Hfetch2 as (u2 & -> & _).
    pose proof (scan_url (page_results env u0 b i) (UStr u0) acc) as Hurl.
    rewrite <- Hscan in Hurl. cbn [fst] in Hurl.
    destruct (last (filter _ (page_results env u0 b i))) as [c|] eqn:Hlast;
      [discriminate Hurl |].
    injection Hurl as ->. apply last_None in Hlast.
    change (removelast (i :: j :: rest)) with (i :: removelast (j :: rest)) in Hi'.
    apply elem_of_cons in Hi' as [-> | Hi']; [exact Hlast |].
    eapply IH; eassumption.
Qed.

End Pages.

(** X9.  When [parse] returns, none of its first four pages held an
    [HtmlElement] container, and the list it returns is made of the
    for-sale containers of the fifth page alone: a page with a
    container, for sale or not, leaves the hrefs of that container in
    [url], and the next pass cannot navigate to them. *)
Theorem parse_returns_fifth_page_only `{Lxml} (env : Env) (fuel : nat)
    (b : browser_type) (input_data : InputData) (filter_request : option string)
    (w : world) (scraped_data : list listing) :
  (parse env fuel b input_data filter_request w).1 = Normal scraped_data →
  (∀ i, (i < 4)%nat →
     filter (λ c, isinstance_HtmlElement c = true)
       (page_results env (search_url (zip_code input_data) filter_request) b i) = [])
  ∧ scraped_data
    = record_of <$> filter (λ c, kept c = true)
        (page_results env (search_url (zip_code input_data) filter_request) b 4).
Proof.
  intros Hrun.
  destruct (parse env fuel b input_data filter_request w) as [o w'] eqn:Hparse.
  cbn in Hrun. subst o.
  assert (∀ i, (i < 4)%nat →
            filter (λ c, isinstance_HtmlElement c = true)
              (page_results env (search_url (zip_code input_data) filter_request) b i)
            = []) as Hpages.
  { intros i Hi. pose proof Hparse as Hloop. unfold parse in Hloop.
    do 2 step Hloop. apply bind_normal in Hloop as (vars & w3 & Hloop & _).
    eapply fetch_passes_pages; [exact Hloop |].
    change (removelast passes) with (seq 0 4). apply elem_of_seq. lia. }
  split; [exact Hpages |].
  apply parse_normal in Hparse. rewrite Hparse.
  change passes with [0; 1; 2; 3; 4]%nat. cbn [flat_map].
  rewrite !pass_records_scan.
  rewrite (no_element_none_kept _ (Hpages 0%nat ltac:(lia))).
  rewrite (no_element_none_kept _ (Hpages 1%nat ltac:(lia))).
  rewrite (no_element_none_kept _ (Hpages 2%nat ltac:(lia))).
  rewrite (no_element_none_kept _ (Hpages 3%nat ltac:(lia))).
  cbn. rewrite app_nil_r. reflexivity.
Qed.

Lemma parse_returns_fifth_page_only_witness :
  let env := host project false webkit_last in
  (∀ i, (i < 4)%nat →
     filter (λ c, isinstance_HtmlElement c = true)
       (page_results env (search_url "90210" None) webkit i) = [])
  ∧ [record_of (article true "Cottage" "https://www.zillow.com/homedetails/3")]
    = record_of <$> filter (λ c, kept c = true)
        (page_results env (search_url "90210" None) webkit 4).
Proof.
  apply (@parse_returns_fifth_page_only toy_lxml (host project false webkit_last) 1
           webkit beverly_hills None (start bare_project)).
  vm_compute. reflexivity.
Defined.

(** ** The text of the fields (lines 103-110) *)

Section Text.

Local Open Scope string_scope.

Lemma chars_app (a b : string) : chars (a ++ b) = (chars a ++ chars b)%list.
Proof.
  induction a as [|c a IH]; [reflexivity |].
  change (c :: chars (a ++ b) = c :: (chars a ++ chars b)%list). rewrite IH. reflexivity.
Qed.









Lemma rstrip_cons (c : ascii) (rest : string) :
  PyStr.rstrip (String c rest) =
  if PyStr.is_empty (PyStr.rstrip rest) && PyStr.isspace c then ""
  else String c (PyStr.rstrip rest).
Proof. reflexivity. Qed.

Lemma rstrip_idempotent (s : string) : PyStr.rstrip (PyStr.rstrip s) = PyStr.rstrip s.
Proof.
  induction s as [|c s IH]; [reflexivity |].
  rewrite rstrip_cons.
  destruct (PyStr.is_empty (PyStr.rstrip s) && PyStr.isspace c) eqn:Hcut; [reflexivity |].
  rewrite rstrip_cons, IH, Hcut. reflexivity.
Qed.

(** [lstrip] leaves nothing or a string that starts with a character
    other than whitespace, and [rstrip] keeps such a start. *)
Lemma lstrip_rstrip_lstrip (s : string) :
  PyStr.lstrip (PyStr.rstrip (PyStr.lstrip s)) = PyStr.rstrip (PyStr.lstrip s).
Proof.
  induction s as [|c s IH]; [reflexivity |].
  cbn [PyStr.lstrip]. destruct (PyStr.isspace c) eqn:Hc; [exact IH |].
  rewrite rstrip_cons, Hc, andb_false_r. cbn [PyStr.lstrip]. rewrite Hc. reflexivity.
Qed.

Lemma strip_idempotent (s : string) : PyStr.strip (PyStr.strip s) = PyStr.strip s.
Proof.
  unfold PyStr.strip. rewrite lstrip_rstrip_lstrip. apply rstrip_idempotent.
Qed.

Lemma if_any_stripped (raw : list string) : stripped (if_any joined_stripped raw).
Proof. destruct raw; [exact I |]. apply strip_idempotent. Qed.


End Text.


(** X11.  City, state, postal code, price and broker name, when present,
    carry no whitespace at either end: stripping them again changes
    nothing. *)
Theorem single_fields_are_stripped `{Lxml} (c : element) :
  stripped (city (record_of c))
  ∧ stripped (state (record_of c))
  ∧ stripped (postal_code (record_of c))
  ∧ stripped (price (record_of c))
  ∧ stripped (real_estate_provider (record_of c)).
Proof.
  unfold record_of, scrape.
  cbn [fst city state postal_code price real_estate_provider].
  repeat split; apply if_any_stripped.
Qed.

Section Facts.

Local Open Scope string_scope.

(** The replacement of line 108, and what it does to one character. *)
Local Abbreviation dot_to_comma := (PyStr.replace_char PyStr.middle_dot ",").
Local Abbreviation dot_to_comma_char :=
  (λ c : ascii, if Ascii.eqb c PyStr.middle_dot then ","%char else c).






End Facts.


(** ** Launching and closing browsers (lines 131-154) *)

Section Engines.

Context `{Lxml} (env : Env) (input_data : InputData).

Lemma try_finally_record {A : Type} (body : M A) (c : call) (w : world) :
  try_finally body (record_call c) w =
  match body w with
  | (Diverged, w1) => (Diverged, w1)
  | (o, w1) => (o, World (fs w1) (stdout w1) (calls w1 ++ [c]))
  end.
Proof. unfold try_finally. destruct (body w) as [[a|e|] w1]; reflexivity. Qed.

Lemma launch_result (b : browser_type) (w : world) :
  launch env b w =
  (if launch_ok env b then Normal tt else Raised PlaywrightError,
   World (fs w) (stdout w) (calls w ++ [Launch b])).
Proof.
  unfold launch. rewrite bind_unfold. cbn. destruct (launch_ok env b); reflexivity.
Qed.

(** Between launch and close an engine makes none of the two calls. *)
Lemma engine_body_calls (fuel : nat) (b : browser_type) :
  keeps (called (λ c, ¬ engine_call c))
    (scraped_data ← parse env fuel b input_data None;
     print "Writing data to output file";;
     write_csv env (csv_name input_data) scraped_data).
Proof.
  rule spec_then.
  - eapply (parse_keeps env _ input_data None).
    + apply print_called.
    + intros c Hc. apply record_call_called. destruct c; cbn in *; tauto.
    + apply mkdir_called.
    + intros name _. apply open_wb_called.
    + intros name data _. apply write_called.
  - intros scraped_data. rule spec_seq; [apply print_called |].
    eapply (write_csv_keeps env _ input_data).
    + intros name _. apply open_wb_called.
    + intros name data _. apply write_called.
Qed.

Lemma engine_launch_fails (fuel : nat) (b : browser_type) (w : world) :
  launch_ok env b = false →
  engine env fuel input_data b w
  = (Raised PlaywrightError, World (fs w) (stdout w) (calls w ++ [Launch b])).
Proof.
  intros Hfail. unfold engine. rewrite bind_unfold, launch_result, Hfail. reflexivity.
Qed.

End Engines.

Lemma engine_calls_shape `{Lxml} (env : Env) (input_data : InputData)
    (fuel : nat) (b : browser_type) (w : world) :
  launch_ok env b = true →
  (engine env fuel input_data b w).1 ≠ Diverged →
  ∃ mid,
    calls (engine env fuel input_data b w).2
    = (calls w ++ Launch b :: mid ++ [Close b])%list
    ∧ Forall (λ c, ¬ engine_call c) mid.
Proof.
  intros Hlaunch Hends. unfold engine in *.
  rewrite bind_unfold, launch_result, Hlaunch in *.
  rewrite try_finally_record in *.
  pose proof (spec_world _ _ _ (World (fs w) (stdout w) (calls w ++ [Launch b]))
                (engine_body_calls env input_data fuel b)) as (mid & Hcalls & Hmid).
  cbn [calls] in Hcalls.
  destruct ((scraped_data ← parse env fuel b input_data None;
             print "Writing data to output file";;
             write_csv env (csv_name input_data) scraped_data)
              (World (fs w) (stdout w) (calls w ++ [Launch b]))) as [[a|e|] w1];
    cbn in *; [| | destruct Hends; reflexivity];
    exists mid; (split; [| exact Hmid]);
    rewrite Hcalls, <- !app_assoc; reflexivity.
Qed.

(** X13.  A browser that launches is closed exactly once, whether the
    engine returns or ends on an exception: the calls of an engine that
    does not hang are the launch, then calls that neither launch nor
    close a browser, then the close. *)
Theorem launched_browser_is_closed_once `{Lxml} (env : Env) (input_data : InputData)
    (fuel : nat) (b : browser_type) (w : world) :
  launch_ok env b = true →
  (engine env fuel input_data b w).1 ≠ Diverged →
  ∃ mid,
    calls (engine env fuel input_data b w).2
    = (calls w ++ Launch b :: mid ++ [Close b])%list
    ∧ Forall (λ c, ¬ engine_call c) mid.
Proof. apply engine_calls_shape. Qed.

Lemma launched_browser_is_closed_once_witness :
  let env := host project false busy in
  ∃ mid,
    calls (engine env 1 beverly_hills chromium (start bare_project)).2
    = ([] ++ Launch chromium :: mid ++ [Close chromium])%list
    ∧ Forall (λ c, ¬ engine_call c) mid.
Proof.
  apply (@launched_browser_is_closed_once toy_lxml (host project false busy)
           beverly_hills 1 chromium (start bare_project)).
  - reflexivity.
  - vm_compute. discriminate.
Defined.

(** X14.  When the second engine does not launch, the run ends on that
    error: the browser that did not launch is not closed, the third
    engine is never launched, and the CSV file that the first engine
    wrote stays on disk with the listings of the first engine. *)
Theorem failed_launch_ends_run `{Lxml} (env : Env) (input_data : InputData)
    (fuel : nat) (w w1 : world) :
  engine env fuel input_data chromium w = (Normal tt, w1) →
  launch_ok env firefox = false →
  parse_zillow_pages env fuel input_data w
  = (Raised PlaywrightError, World (fs w1) (stdout w1) (calls w1 ++ [Launch firefox]))
  ∧ fs w1 !! resolve env (cwd env) (csv_name input_data)
    = Some (File (csv_text env (engine_records env (zip_code input_data) chromium))).
Proof.
  intros Hfirst Hfail. split.
  - unfold parse_zillow_pages. rewrite for_each_cons, bind_unfold, Hfirst.
    rewrite for_each_cons, bind_unfold, engine_launch_fails by exact Hfail.
    reflexivity.
  - apply (engine_normal env fuel input_data chromium w w1 Hfirst).
Qed.

Lemma failed_launch_ends_run_witness :
  let env := host_without_firefox project chromium_only in
  let w := start bare_project in
  let w1 := (engine env 1 beverly_hills chromium w).2 in
  parse_zillow_pages env 1 beverly_hills w
  = (Raised PlaywrightError, World (fs w1) (stdout w1) (calls w1 ++ [Launch firefox]))
  ∧ fs w1 !! resolve env (cwd env) (csv_name beverly_hills)
    = Some (File (csv_text env (engine_records env "90210" chromium))).
Proof.
  apply (@failed_launch_ends_run toy_lxml (host_without_firefox project chromium_only)
           beverly_hills 1 (start bare_project)).
  - vm_compute. reflexivity.
  - reflexivity.
Defined.

(** X15.  Whatever the sort token and whatever the cookie file holds, a
    run never registers a cookie and never hands to [goto] a string
    other than the default URL of the postal code. *)
Theorem run_registers_no_cookie `{Lxml} (env : Env) (input_data : InputData)
    (fuel : nat) (w : world) :
  ∃ new,
    calls (parse_zillow_pages env fuel input_data w).2 = (calls w ++ new)%list
    ∧ ∀ c, c ∈ new →
        (∀ cookies, c = AddCookies cookies → cookies = [])
        ∧ (∀ u, c = Goto (UStr u) → u = default_template (zip_code input_data)).
Proof.
  destruct (run_called env input_data fuel w) as (new & Hcalls & Hnew).
  exists new. split; [exact Hcalls |].
  intros c Hc. rewrite Forall_forall in Hnew. specialize (Hnew c Hc).
  split.
  - intros cookies ->. exact Hnew.
  - intros u ->. exact Hnew.
Qed.

(** ** Writing the CSV file (lines 137-152) *)

Section Csv.

Context (env : Env).

Lemma write_rows_total (p : path) (rows : list listing) (w : world) (old : string) :
  fs w !! p = Some (File old) →
  ∃ w', for_each rows (λ row _, write p (writerow env (row_cells row))) tt w
        = (Normal tt, w')
        ∧ fs w' !! p = Some (File (old ++ csv_rows env rows))
        ∧ (∀ q, q ≠ p → fs w' !! q = fs w !! q)
        ∧ stdout w' = stdout w ∧ calls w' = calls w.
Proof.
  revert w old. induction rows as [|row rest IH]; intros w old Hold.
  - exists w. cbn. rewrite string_app_nil_r.
    split; [reflexivity |]. split; [exact Hold |].
    split; [intros; reflexivity |]. split; reflexivity.
  - rewrite for_each_cons, bind_unfold. unfold write at 1. rewrite Hold.
    destruct (IH (World (<[p := File (old ++ writerow env (row_cells row))]> (fs w))
                    (stdout w) (calls w)) (old ++ writerow env (row_cells row)))
      as (w' & Hrun & Hfile & Hframe & Hout & Hcalls); [apply lookup_insert_eq |].
    exists w'. split; [exact Hrun |]. split; [| split; [| split; assumption]].
    + cbn [csv_rows foldr]. rewrite <- string_app_assoc. exact Hfile.
    + intros q Hq. rewrite Hframe by exact Hq. apply lookup_insert_ne. congruence.
Qed.

End Csv.

(** X16.  Writing the CSV file succeeds whenever its path is not a
    directory and the directory it goes into exists.  The file then
    holds the header and the rows, whatever it held before; no other
    path changes, nothing is printed and no browser call is made. *)
Theorem csv_file_is_rewritten (env : Env) (name : string) (rows : list listing)
    (w : world) :
  fs w !! resolve env (cwd env) name ≠ Some Dir →
  fs w !! parent (resolve env (cwd env) name) = Some Dir →
  ∃ w', write_csv env name rows w = (Normal tt, w')
        ∧ fs w' !! resolve env (cwd env) name = Some (File (csv_text env rows))
        ∧ (∀ q, q ≠ resolve env (cwd env) name → fs w' !! q = fs w !! q)
        ∧ stdout w' = stdout w ∧ calls w' = calls w.
Proof.
  intros Hnot_dir Hparent. unfold write_csv.
  set (p := resolve env (cwd env) name) in *.
  assert (open_wb p w = (Normal tt, World (<[p := File ""]> (fs w)) (stdout w) (calls w)))
    as Hopen.
  { unfold open_wb. rewrite Hparent.
    destruct (fs w !! p) as [[|old]|]; [destruct Hnot_dir | |]; reflexivity. }
  rewrite bind_unfold, Hopen, bind_unfold. unfold write at 1. cbn [fs stdout calls].
  rewrite lookup_insert_eq. rewrite insert_insert_eq.
  destruct (write_rows_total env p rows
              (World (<[p := File ("" ++ writerow env (Some <$> fieldnames))]> (fs w))
                 (stdout w) (calls w)) ("" ++ writerow env (Some <$> fieldnames)))
    as (w' & Hrun & Hfile & Hframe & Hout & Hcalls); [apply lookup_insert_eq |].
  exists w'. split; [exact Hrun |]. split; [exact Hfile |].
  split; [| split; assumption].
  intros q Hq. rewrite Hframe by exact Hq. apply lookup_insert_ne. congruence.
Qed.

Lemma csv_file_is_rewritten_witness :
  let env := host project false quiet in
  let w := start (<[joinpath project "properties-90210.csv" := File "old rows"]>
                    bare_project) in
  ∃ w', write_csv env "properties-90210.csv" [] w = (Normal tt, w')
        ∧ fs w' !! resolve env (cwd env) "properties-90210.csv"
          = Some (File (csv_text env []))
        ∧ (∀ q, q ≠ resolve env (cwd env) "properties-90210.csv" →
             fs w' !! q = fs w !! q)
        ∧ stdout w' = stdout w ∧ calls w' = calls w.
Proof.
  apply (csv_file_is_rewritten (host project false quiet) "properties-90210.csv" []).
  - vm_compute. discriminate.
  - vm_compute. reflexivity.
Defined.

(** ** The command line, in general (lines 164-176) *)

(** X17.  On a command line without a word that starts with a dash, the
    arguments are accepted in two cases only: a zipcode followed by
    [newest] or [cheapest], and, where the default of [sort] is not
    validated, a zipcode alone, which gets the sort ["homes for you"].
    Every other command line, a third word included, is a usage error,
    and then [main] exits with status 2 and leaves the world as it
    was. *)
Theorem command_line_acceptance `{Lxml} (env : Env) (argv : list string)
    (zipcode token : string) :
  existsb (PyStr.startswith "-") argv = false →
  (parse_args env argv = Namespace zipcode token
   ↔ (argv = [zipcode; token] ∧ token ∈ sort_choices)
     ∨ (argv = [zipcode] ∧ token = sort_default ∧ checks_default env = false))
  ∧ (parse_args env argv = UsageError ∨ ∃ z s, parse_args env argv = Namespace z s)
  ∧ (parse_args env argv = UsageError →
     ∀ fuel w, main env fuel argv w = (Exited 2, w)).
Proof.
  intros Hplain. split; [| split].
  - unfold parse_args. rewrite Hplain.
    destruct argv as [|a [|b [|c rest]]].
    + split; [discriminate | intros [[[=] _] | [[=] _]]].
    + change (check_value sort_default) with false. cbn [negb]. rewrite andb_true_r.
      destruct (checks_default env); split.
      * discriminate.
      * intros [[[=] _] | (_ & _ & [=])].
      * intros [= <- <-]. right. repeat split; reflexivity.
      * intros [[[=] _] | ([= <-] & -> & _)]. reflexivity.
    + unfold check_value. destruct (bool_decide_reflect (b ∈ sort_choices)) as [Hin | Hout];
        cbn [negb]; split.
      * intros [= <- <-]. left. split; [reflexivity | exact Hin].
      * intros [([= <- <-] & _) | ([=] & _)]. reflexivity.
      * discriminate.
      * intros [([= <- <-] & Hin) | ([=] & _)]. destruct (Hout Hin).
    + destruct (negb (check_value b)); split; try discriminate;
        intros [[[=] _] | [[=] _]].
  - unfold parse_args. rewrite Hplain.
    destruct argv as [|a [|b [|c rest]]]; [left; reflexivity | | |].
    + destruct (checks_default env && negb (check_value sort_default));
        [left; reflexivity | right; eexists _, _; reflexivity].
    + destruct (negb (check_value b));
        [left; reflexivity | right; eexists _, _; reflexivity].
    + destruct (negb (check_value b)); left; reflexivity.
  - intros Husage fuel w. unfold main. rewrite Husage. reflexivity.
Qed.

Lemma command_line_acceptance_witness :
  let env := host project false quiet in
  (parse_args env ["90210"; "cheapest"] = Namespace "90210" "cheapest"
   ↔ (["90210"; "cheapest"] = ["90210"; "cheapest"] ∧ "cheapest" ∈ sort_choices)
     ∨ (["90210"; "cheapest"] = ["90210"] ∧ "cheapest" = sort_default
        ∧ checks_default env = false))
  ∧ (parse_args env ["90210"; "cheapest"] = UsageError
     ∨ ∃ z s, parse_args env ["90210"; "cheapest"] = Namespace z s)
  ∧ (parse_args env ["90210"; "cheapest"] = UsageError →
     ∀ fuel w, main env fuel ["90210"; "cheapest"] w = (Exited 2, w)).
Proof.
  apply (@command_line_acceptance toy_lxml (host project false quiet)
           ["90210"; "cheapest"] "90210" "cheapest").
  reflexivity.
Defined.

(** ** What a run leaves in place *)

#[global] Instance kinds_kept_preorder : PreOrder kinds_kept.
Proof.
  split.
  - intros w p. split; intros Hp; exact Hp.
  - intros w1 w2 w3 H12 H23 p. split; intros Hp.
    + apply H23, H12, Hp.
    + apply H23, H12, Hp.
Qed.

(** [mkdir] changes no node that is there. *)
Lemma mkdir_p_nodes (p : path) (fsys fsys' : gmap path node) (q : path) (n : node) :
  mkdir_p fsys p = inr fsys' → fsys !! q = Some n → fsys' !! q = Some n.
Proof.
  revert fsys'. induction p as [|name up IH]; intros fsys' Hmk Hq;
    rewrite mkdir_p_unfold in Hmk.
  - destruct (fsys !! []) as [[|data]|] eqn:Ep; simplify_eq; [exact Hq |].
    rewrite lookup_insert_ne; [exact Hq | congruence].
  - destruct (fsys !! (name :: up)) as [[|data]|] eqn:Ep; simplify_eq; [exact Hq |].
    assert (name :: up ≠ q) as Hne by congruence.
    destruct (fsys !! up) as [[|data]|] eqn:Eup; simplify_eq.
    + rewrite lookup_insert_ne by exact Hne. exact Hq.
    + destruct (mkdir_p fsys up) as [e|fsys''] eqn:Emk; simplify_eq.
      rewrite lookup_insert_ne by exact Hne. apply IH; [reflexivity | exact Hq].
Qed.

Section Kinds.

Lemma same_fs_kinds (w w' : world) : fs w' = fs w → kinds_kept w w'.
Proof. intros E p. rewrite E. split; intros Hp; exact Hp. Qed.

Lemma print_kinds (line : string) : keeps kinds_kept (print line).
Proof. apply keeps_of_step. intros w. apply same_fs_kinds. reflexivity. Qed.

Lemma record_call_kinds (c : call) : keeps kinds_kept (record_call c).
Proof. apply keeps_of_step. intros w. apply same_fs_kinds. reflexivity. Qed.

Lemma mkdir_kinds (p : path) : keeps kinds_kept (mkdir p).
Proof.
  apply keeps_of_step. intros w. unfold mkdir.
  destruct (mkdir_p (fs w) p) as [e|fsys'] eqn:Emk; [reflexivity |].
  intros q. cbn. split.
  - intros Hq. eapply mkdir_p_nodes; eassumption.
  - intros [data Hq]. exists data. eapply mkdir_p_nodes; eassumption.
Qed.

Lemma put_file_kinds (p : path) (data : string) (w : world) :
  fs w !! p ≠ Some Dir →
  kinds_kept w (World (<[p := File data]> (fs w)) (stdout w) (calls w)).
Proof.
  intros Hp q. cbn. split.
  - intros Hq. rewrite lookup_insert_ne; [exact Hq | congruence].
  - intros [old Hq]. destruct (decide (p = q)) as [<- | Hne].
    + exists data. apply lookup_insert_eq.
    + exists old. rewrite lookup_insert_ne; [exact Hq | exact Hne].
Qed.

Lemma open_wb_kinds (p : path) : keeps kinds_kept (open_wb p).
Proof.
  apply keeps_of_step. intros w. unfold open_wb.
  destruct (fs w !! p) as [[|old]|] eqn:Ep; [reflexivity | |];
    (destruct (fs w !! parent p) as [[|data]|]; [| reflexivity | reflexivity]);
    apply put_file_kinds; congruence.
Qed.

Lemma write_kinds (p : path) (data : string) : keeps kinds_kept (write p data).
Proof.
  apply keeps_of_step. intros w. unfold write.
  destruct (fs w !! p) as [[|old]|] eqn:Ep; [reflexivity | | reflexivity].
  apply put_file_kinds. congruence.
Qed.

End Kinds.

(** X18.  A run deletes nothing and changes the kind of nothing: a
    directory that was there is still a directory afterwards, and a
    file that was there is still a file, however the run ends. *)
Theorem run_keeps_every_path `{Lxml} (env : Env) (input_data : InputData)
    (fuel : nat) (w : world) (p : path) :
  (fs w !! p = Some Dir →
   fs (parse_zillow_pages env fuel input_data w).2 !! p = Some Dir)
  ∧ (∀ data, fs w !! p = Some (File data) →
       ∃ data', fs (parse_zillow_pages env fuel input_data w).2 !! p
                = Some (File data')).
Proof.
  assert (kinds_kept w (parse_zillow_pages env fuel input_data w).2) as Hkept.
  { rule spec_world. eapply (run_keeps env _ input_data None); try reflexivity.
    - apply print_kinds.
    - intros c _. apply record_call_kinds.
    - apply mkdir_kinds.
    - intros name _. apply open_wb_kinds.
    - intros name data _. apply write_kinds.
    - intros b. split; apply record_call_kinds. }
  split.
  - apply Hkept.
  - intros data Hfile. apply (Hkept p). exists data. exact Hfile.
Qed.

(** ** The screenshots of a returning [parse] (line 70) *)

Section Screenshots.

Context `{Lxml} (env : Env).

Lemma print_fs (line : string) (w w' : world) (u : unit) :
  print line w = (Normal u, w') → fs w' = fs w.
Proof. intros [= _ <-]. reflexivity. Qed.

Lemma screenshot_normal (b : browser_type) (i : nat) (name : string) (w w' : world) :
  screenshot env b i name w = (Normal tt, w') →
  is_file (fs w' !! resolve env (cwd env) name).
Proof.
  unfold screenshot. intros Hrun. step Hrun.
  destruct (screenshot_png env b i) as [png|]; [| discriminate].
  apply bind_normal in Hrun as ([] & w2 & Hopen & Hwrite).
  apply open_wb_normal in Hopen.
  exists ("" ++ png). eapply write_normal; eassumption.
Qed.

Lemma fetch_normal_file (b : browser_type) (input_data : InputData)
    (cookie_data_list : list (gmap string json)) (i : nat)
    (vars vars' : url_value * list listing) (w w' : world) :
  fetch env b input_data cookie_data_list i vars w = (Normal vars', w') →
  is_file (fs w' !! resolve env (cwd env) (screenshot_name i)).
Proof.
  unfold fetch. destruct vars as [v acc]. intros Hrun. do 3 step Hrun.
  apply bind_normal in Hrun as (page_data & w4 & _ & Hrun).
  apply bind_normal in Hrun as ([] & w5 & Hshot & Hrun).
  apply bind_normal in Hrun as (u6 & w6 & Hprint1 & Hrun).
  apply bind_normal in Hrun as (u7 & w7 & Hprint2 & Hrun).
  destruct (fromstring page_data) as [parser|]; [| discriminate].
  injection Hrun as _ <-.
  rewrite (print_fs _ _ _ _ Hprint2), (print_fs _ _ _ _ Hprint1).
  eapply screenshot_normal. exact Hshot.
Qed.

Lemma fetch_kinds (b : browser_type) (input_data : InputData)
    (filter_request : option string) (i : nat) (vars : url_value * list listing) :
  i ∈ passes →
  url_from (search_url (zip_code input_data) filter_request) vars →
  spec kinds_kept (url_from (search_url (zip_code input_data) filter_request))
    (fetch env b input_data [] i vars).
Proof.
  eapply (fetch_spec env _ input_data filter_request).
  - apply print_kinds.
  - intros c _. apply record_call_kinds.
  - intros name _. apply open_wb_kinds.
  - intros name data _. apply write_kinds.
Qed.

Lemma fetch_passes_files (b : browser_type) (input_data : InputData)
    (filter_request : option string) (l : list nat)
    (vars vars' : url_value * list listing) (w w' : world) :
  (∀ i, i ∈ l → i ∈ passes) →
  url_from (search_url (zip_code input_data) filter_request) vars →
  for_each l (fetch env b input_data []) vars w = (Normal vars', w') →
  ∀ i, i ∈ l → is_file (fs w' !! resolve env (cwd env) (screenshot_name i)).
Proof.
  revert vars w. induction l as [|i rest IH]; intros vars w Hl Hfrom Hrun i' Hi'.
  - apply elem_of_nil in Hi'. destruct Hi'.
  - rewrite for_each_cons in Hrun.
    apply bind_normal in Hrun as (vars1 & w1 & Hfetch & Hrun).
    assert (i ∈ passes) as Hi by (apply Hl; left).
    pose proof (spec_returns _ _ _ _ _ _
                  (fetch_kinds b input_data filter_request i vars Hi Hfrom) Hfetch)
      as [Hfrom1 _].
    apply elem_of_cons in Hi' as [-> | Hi'].
    + assert (kinds_kept w1 w') as Hkept.
      { assert (spec kinds_kept
                  (url_from (search_url (zip_code input_data) filter_request))
                  (for_each rest (fetch env b input_data []) vars1)) as Hrest.
        { rule spec_for_each; [| exact Hfrom1].
          intros j vars2 Hj Hfrom2. apply fetch_kinds; [| exact Hfrom2].
          apply Hl. right. exact Hj. }
        apply (spec_returns _ _ _ _ _ _ Hrest Hrun). }
      apply Hkept. eapply fetch_normal_file. exact Hfetch.
    + eapply IH; [| exact Hfrom1 | exact Hrun | exact Hi'].
      intros j Hj. apply Hl. right. exact Hj.
Qed.

End Screenshots.

(** X19.  When [parse] returns, each of the five screenshot names
    [example-0.png] to [example-4.png] names a file. *)
Theorem returning_parse_leaves_screenshots `{Lxml} (env : Env) (fuel : nat)
    (b : browser_type) (input_data : InputData) (filter_request : option string)
    (w : world) (scraped_data : list listing) (i : nat) :
  (parse env fuel b input_data filter_request w).1 = Normal scraped_data →
  (i < 5)%nat →
  is_file (fs (parse env fuel b input_data filter_request w).2
           !! resolve env (cwd env) ("example-" ++ PyStr.of_nat i ++ ".png")).
Proof.
  intros Hrun Hi.
  destruct (parse env fuel b input_data filter_request w) as [o w'] eqn:Hparse.
  cbn in Hrun. subst o. cbn [snd]. unfold parse in Hparse.
  apply bind_normal in Hparse as (pyproject & w1 & Hsearch & Hparse).
  apply bind_normal in Hparse as (cookie_data_list & w2 & Hcookies & Hparse).
  apply bind_normal in Hparse as (vars & w3 & Hloop & Hret).
  injection Hret as _ <-.
  pose proof (spec_returns eq _ _ _ _ _ (search_marker_spec env eq fuel) Hsearch)
    as [-> _].
  assert (spec kinds_kept (λ l : list (gmap string json), l = [])
            (cookie_phase env (Some (marker_file env)))) as Hphase.
  { eapply (cookie_phase_spec env kinds_kept); [apply print_kinds | apply mkdir_kinds]. }
  pose proof (spec_returns _ _ _ _ _ _ Hphase Hcookies) as [-> _].
  eapply (fetch_passes_files env b input_data filter_request passes
            (UStr (search_url (zip_code input_data) filter_request), []) vars w2 w3);
    [intros j Hj; exact Hj | left; reflexivity | exact Hloop |].
  apply elem_of_seq. lia.
Qed.

Lemma returning_parse_leaves_screenshots_witness :
  let env := host project false quiet in
  is_file (fs (parse env 1 chromium beverly_hills None (start bare_project)).2
           !! resolve env (cwd env) ("example-" ++ PyStr.of_nat 3 ++ ".png")).
Proof.
  apply (@returning_parse_leaves_screenshots toy_lxml (host project false quiet) 1
           chromium beverly_hills None (start bare_project) [] 3).
  - vm_compute. reflexivity.
  - lia.
Defined.

(** ** The browsers of a complete run (lines 131-154) *)

Lemma engine_calls_app (cs ds : list call) :
  engine_calls (cs ++ ds) = (engine_calls cs ++ engine_calls ds)%list.
Proof. apply filter_app. Qed.

Lemma engine_calls_none (mid : list call) :
  Forall (λ c, ¬ engine_call c) mid → engine_calls mid = [].
Proof.
  induction 1 as [|c mid Hc _ IH]; [reflexivity |].
  unfold engine_calls. rewrite filter_cons.
  rewrite decide_False; [exact IH |].
  destruct c; cbn in *; try discriminate; tauto.
Qed.

Lemma engine_normal_calls `{Lxml} (env : Env) (input_data : InputData) (fuel : nat)
    (b : browser_type) (w w' : world) :
  engine env fuel input_data b w = (Normal tt, w') →
  engine_calls (calls w') = (engine_calls (calls w) ++ [Launch b; Close b])%list.
Proof.
  intros Hrun.
  assert (launch_ok env b = true) as Hlaunch.
  { destruct (launch_ok env b) eqn:Hl; [reflexivity |].
    rewrite engine_launch_fails in Hrun by exact Hl. discriminate. }
  destruct (engine_calls_shape env input_data fuel b w Hlaunch) as (mid & Hcalls & Hmid).
  { rewrite Hrun. discriminate. }
  rewrite Hrun in Hcalls. cbn [snd] in Hcalls. rewrite Hcalls.
  rewrite engine_calls_app.
  change (Launch b :: mid ++ [Close b])%list with ([Launch b] ++ mid ++ [Close b])%list.
  rewrite !engine_calls_app, (engine_calls_none mid Hmid). reflexivity.
Qed.

(** X20.  In a complete run the browsers are used one after the other:
    the launches and closes of the run are chromium launched and
    closed, then firefox launched and closed, then webkit launched and
    closed, and nothing else. *)
Theorem complete_run_uses_engines_in_turn `{Lxml} (env : Env) (input_data : InputData)
    (fuel : nat) (w w' : world) :
  parse_zillow_pages env fuel input_data w = (Normal tt, w') →
  engine_calls (calls w')
  = (engine_calls (calls w)
     ++ [Launch chromium; Close chromium; Launch firefox; Close firefox;
         Launch webkit; Close webkit])%list.
Proof.
  unfold parse_zillow_pages. rewrite !for_each_cons. intros Hrun.
  apply bind_normal in Hrun as ([] & w1 & Hchromium & Hrun).
  apply bind_normal in Hrun as ([] & w2 & Hfirefox & Hrun).
  apply bind_normal in Hrun as ([] & w3 & Hwebkit & Hrun).
  injection Hrun as <-.
  rewrite (engine_normal_calls _ _ _ _ _ _ Hwebkit).
  rewrite (engine_normal_calls _ _ _ _ _ _ Hfirefox).
  rewrite (engine_normal_calls _ _ _ _ _ _ Hchromium).
  rewrite <- !app_assoc. reflexivity.
Qed.

Lemma complete_run_uses_engines_in_turn_witness :
  let env := host project false webkit_last in
  engine_calls (calls (parse_zillow_pages env 1 beverly_hills (start bare_project)).2)
  = (engine_calls []
     ++ [Launch chromium; Close chromium; Launch firefox; Close firefox;
         Launch webkit; Close webkit])%list.
Proof.
  apply (@complete_run_uses_engines_in_turn toy_lxml (host project false webkit_last)
           beverly_hills 1 (start bare_project)).
  vm_compute. reflexivity.
Defined.

(** ** Names made from the postal code (lines 59 and 137) *)

Lemma chars_injective (a b : string) : chars a = chars b → a = b.
Proof.
  intros Hab. rewrite <- (string_of_list_ascii_of_string a).
  rewrite <- (string_of_list_ascii_of_string b).
  unfold chars in Hab. rewrite Hab. reflexivity.
Qed.

Lemma string_app_cancel (prefix suffix a b : string) :
  (prefix ++ a ++ suffix)%string = (prefix ++ b ++ suffix)%string → a = b.
Proof.
  intros Heq. apply (f_equal chars) in Heq. rewrite !chars_app in Heq.
  apply app_inv_head, app_inv_tail in Heq. apply chars_injective, Heq.
Qed.

(** X21.  Two postal codes with the same CSV file name, or with the
    same default URL, are the same postal code. *)
Theorem names_determine_postal_code (data1 data2 : InputData) (zip1 zip2 : string) :
  (csv_name data1 = csv_name data2 → zip_code data1 = zip_code data2)
  ∧ (default_template zip1 = default_template zip2 → zip1 = zip2).
Proof.
  split.
  - unfold csv_name. apply string_app_cancel.
  - unfold default_template. apply string_app_cancel.
Qed.
